(** * scripts/download_aks_specs.py: a shallow embedding and its properties

    The script fetches one API specification and its example files over
    HTTPS and writes them below a target directory.  It is embedded here as
    a program in a monad that passes the state of the outside world (the
    filesystem and the log of HTTP requests), raises exceptions and collects
    what is printed.

    What lies outside the script is a parameter of the development:
    - [requests_get]: what the network answers to a call of [requests.get];
    - [json_loads]: what the decoder behind [Response.json] makes of a
      response: a value, a decoding error, or one of the exceptions of the
      decoder that are no decoding error;
    - [os_error]: whether the operating system refuses a filesystem call;
    - [joinpath], [py_repr]: pathlib's [/] operator and Python's [repr];
    - [PROJECT_ROOT]: where the script is installed.

    The [requests] library is modelled after its releases from 2.27 on:
    [Response.raise_for_status] raises [HTTPError] for a status code in
    [400, 600) and for no other, and [Response.json] turns the decoder's
    [JSONDecodeError] into [requests.exceptions.JSONDecodeError], a subclass
    of [InvalidJSONError] and thereby of [RequestException].  It catches
    nothing else: a [RecursionError] (a body nested too deep) or a
    [ValueError] (an integer with more digits than the interpreter converts)
    leaves [Response.json] as it is.

    Boundary of the model: [print] never fails, opening and writing a file
    is one atomic step, and the interpreter's traceback for an uncaught
    exception is not part of what is printed. *)

From Stdlib Require Import Strings.Byte.
From stdpp Require Import base strings list gmap pretty.

Set Warnings "-register-all,-clear-no-such-hyp".

Open Scope string_scope.

(** ** Python values *)

(** The values [json.loads] can produce.  A number is carried by its
    literal: the script never computes with one. *)
Inductive pyval : Type :=
| PNone
| PBool (b : bool)
| PNum (lit : string)
| PStr (s : string)
| PList (items : list pyval)
| PDict (items : list (string * pyval)).

(** ** Exceptions *)

(** The subclasses of [requests.exceptions.RequestException]. *)
Inductive request_exception : Type :=
| ConnectionError
| Timeout
| TooManyRedirects
| MissingSchema
| InvalidSchema
| InvalidURL
| ChunkedEncodingError
| ContentDecodingError
| HTTPError
| JSONDecodeError.

Inductive exn : Type :=
| RequestException (cls : request_exception) (msg : string)
| KeyError (key : string)
| TypeError
| OSError (msg : string)
| RecursionError
| ValueError (msg : string)
| SystemExit (code : Z).

Definition is_RequestException (e : exn) : bool :=
  match e with RequestException _ _ => true | _ => false end.

(** ** The world the script acts on *)

(** What exists outside the process: the directories [os.makedirs] made,
    the files written with their content, and the URLs passed to
    [requests.get], oldest first. *)
Record Sys : Type := mkSys {
  dirs : gset string;
  files : gmap string (list byte);
  req_log : list pyval
}.

Definition add_dir (path : string) (s : Sys) : Sys :=
  mkSys ({[path]} ∪ dirs s) (files s) (req_log s).

Definition put_file (path : string) (data : list byte) (s : Sys) : Sys :=
  mkSys (dirs s) (<[path := data]> (files s)) (req_log s).

Definition log_request (u : pyval) (s : Sys) : Sys :=
  mkSys (dirs s) (files s) (req_log s ++ [u]).

(** A line printed, on the standard output or on the error stream. *)
Inductive output : Type :=
| Out (line : string)
| Err (line : string).

Definition is_err (o : output) : bool :=
  match o with Err _ => true | Out _ => false end.

(** The attributes of a [requests.Response] the script's run depends on. *)
Record Response : Type := mkResponse {
  status_code : Z;
  reason : string;
  url : string;
  content : list byte;
  encoding : option string
}.

(** What the JSON decoder does with a body: it decodes it, it raises
    [JSONDecodeError] with a text, or it gives up with [RecursionError] or
    with [ValueError]. *)
Inductive json_result : Type :=
| Decoded (v : pyval)
| NotJson (msg : string)
| TooDeep
| TooLong (msg : string).

Inductive get_result : Type :=
| GetRaised (cls : request_exception) (msg : string)
| GetResponse (r : Response).

Inductive fs_op : Type :=
| OpMakedirs (path : string)
| OpOpenWrite (path : string).

(** ** The monad: state, exceptions and printed lines *)

Inductive result (A : Type) : Type :=
| Ok (a : A)
| Raise (e : exn).
Arguments Ok {A} a.
Arguments Raise {A} e.

(** One run of a computation: how it ended, the world it left and the lines
    it printed, oldest first. *)
Record Run (A : Type) : Type := mkRun {
  outcome : result A;
  final : Sys;
  printed : list output
}.
Arguments mkRun {A} outcome final printed.
Arguments outcome {A} r.
Arguments final {A} r.
Arguments printed {A} r.

Definition M (A : Type) : Type := Sys → Run A.

Definition ret {A} (a : A) : M A := λ s, mkRun (Ok a) s [].

Definition raise {A} (e : exn) : M A := λ s, mkRun (Raise e) s [].

(** [k] continues [r] when [r] ended well. *)
Definition and_then {A B} (r : Run A) (k : A → M B) : Run B :=
  match outcome r with
  | Ok a =>
      let r' := k a (final r) in
      mkRun (outcome r') (final r') (printed r ++ printed r')
  | Raise e => mkRun (Raise e) (final r) (printed r)
  end.

Definition bind {A B} (m : M A) (k : A → M B) : M B :=
  λ s, and_then (m s) k.

(** [try: body / except requests.exceptions.RequestException as e: handler]:
    the handler receives [str(e)]; an exception of another class passes
    through. *)
Definition try_except {A} (body : M A) (handler : string → M A) : M A :=
  λ s, let r := body s in
       match outcome r with
       | Raise (RequestException _ msg) =>
           let r' := handler msg (final r) in
           mkRun (outcome r') (final r') (printed r ++ printed r')
       | _ => r
       end.

Declare Scope py_scope.
Delimit Scope py_scope with py.
Notation "x <- c1 ;; c2" := (bind c1 (λ x, c2))
  (at level 100, c1 at next level, right associativity) : py_scope.
Notation "c1 ;;; c2" := (bind c1 (λ _, c2))
  (at level 100, right associativity) : py_scope.
Open Scope py_scope.

(** ** Pure helpers *)

(** [flag in sys.argv] *)
Definition in_argv (flag : string) (argv : list string) : bool :=
  bool_decide (flag ∈ argv).

(** [d[key]] on a dict held as an association list; where a key comes
    twice, its first binding is the one the dict holds. *)
Fixpoint dict_get (key : string) (d : list (string * pyval)) : option pyval :=
  match d with
  | [] => None
  | (k, v) :: rest => if String.eqb k key then Some v else dict_get key rest
  end.

(** [v == s] for a string [s]: a value equals a string only if it is that
    string. *)
Definition py_eq_str (v : pyval) (s : string) : bool :=
  match v with
  | PStr t => String.eqb t s
  | _ => false
  end.

Fixpoint str_chars (s : string) : list pyval :=
  match s with
  | EmptyString => []
  | String a rest => PStr (String a EmptyString) :: str_chars rest
  end.

Definition BASE_URL : string :=
  "https://raw.githubusercontent.com/Azure/azure-rest-api-specs/main".
Definition SPEC_PATH : string :=
  "specification/containerservice/resource-manager/Microsoft.ContainerService/aks/stable/2025-03-01".

Definition main_spec_url : string :=
  BASE_URL +:+ "/" +:+ SPEC_PATH +:+ "/managedClusters.json".
Definition examples_api_url : string :=
  "https://api.github.com/repos/Azure/azure-rest-api-specs/contents/"
  +:+ SPEC_PATH +:+ "/examples".

(** The message [raise_for_status] builds; empty when the status is fine. *)
Definition http_error_msg (r : Response) : string :=
  if bool_decide (400 ≤ status_code r < 500)%Z then
    pretty (status_code r) +:+ " Client Error: " +:+ reason r
      +:+ " for url: " +:+ url r
  else if bool_decide (500 ≤ status_code r < 600)%Z then
    pretty (status_code r) +:+ " Server Error: " +:+ reason r
      +:+ " for url: " +:+ url r
  else "".

(** ** Primitive effects *)

Definition print (line : string) : M unit :=
  λ s, mkRun (Ok ()) s [Out line].

(** [print(..., file=sys.stderr)] *)
Definition print_err (line : string) : M unit :=
  λ s, mkRun (Ok ()) s [Err line].

(** [sys.exit(code)] *)
Definition sys_exit {A} (code : Z) : M A := raise (SystemExit code).

(** Iterating a value with [for]: a list gives its items, a dict its keys,
    a string its characters; anything else is not iterable. *)
Definition py_iter (v : pyval) : M (list pyval) :=
  match v with
  | PList items => ret items
  | PDict items => ret (PStr <$> (fst <$> items))
  | PStr s => ret (str_chars s)
  | _ => raise TypeError
  end.

(** [v[key]] with a string key: a dict is looked up, and subscripting any
    other value with a string is a type error. *)
Definition getitem (v : pyval) (key : string) : M pyval :=
  match v with
  | PDict items =>
      match dict_get key items with
      | Some x => ret x
      | None => raise (KeyError key)
      end
  | _ => raise TypeError
  end.

(** [response.raise_for_status()] *)
Definition raise_for_status (r : Response) : M unit :=
  if bool_decide (http_error_msg r ≠ "")
  then raise (RequestException HTTPError (http_error_msg r))
  else ret ().

(** The exit status the interpreter hands to the operating system:
    [sys.exit(code)] gives [code], an exception nobody caught gives 1. *)
Definition exit_status {A} (r : result A) : Z :=
  match r with
  | Ok _ => 0
  | Raise (SystemExit code) => code
  | Raise _ => 1
  end.

(** ** The environment of the script *)

(** Everything the script takes from outside: the answer of the network to
    [requests.get] (which may depend on all that happened before), the JSON
    decoder, the refusals of the operating system, pathlib's [/], Python's
    [repr], and the directory above the script's own. *)
Class Env : Type := mkEnv {
  requests_get_oracle : Sys → pyval → get_result;
  json_loads : Response → json_result;
  os_error : Sys → fs_op → option string;
  joinpath : string → string → string;
  py_repr : pyval → string;
  PROJECT_ROOT : string
}.

Notation "p // q" := (joinpath p q) (at level 40, left associativity) : py_scope.

Section Script.

Context `{Env}.

Definition TARGET_DIR : string := PROJECT_ROOT // "azure_spec".

(** [str(v)], as an f-string field formats [v]. *)
Definition py_str (v : pyval) : string :=
  match v with
  | PStr s => s
  | _ => py_repr v
  end.

(** [path / v]: pathlib joins a path with a string only. *)
Definition path_div (path : string) (v : pyval) : M string :=
  match v with
  | PStr s => ret (path // s)
  | _ => raise TypeError
  end.

(** [os.makedirs(path, exist_ok=True)] *)
Definition os_makedirs (path : string) : M unit :=
  λ s, match os_error s (OpMakedirs path) with
       | Some msg => mkRun (Raise (OSError msg)) s []
       | None => mkRun (Ok ()) (add_dir path s) []
       end.

(** [requests.get(url)]: the call is logged and the network answers. *)
Definition requests_get (u : pyval) : M Response :=
  λ s, match requests_get_oracle s u with
       | GetRaised cls msg =>
           mkRun (Raise (RequestException cls msg)) (log_request u s) []
       | GetResponse r => mkRun (Ok r) (log_request u s) []
       end.

(** [response.json()] *)
Definition response_json (r : Response) : M pyval :=
  match json_loads r with
  | Decoded v => ret v
  | NotJson msg => raise (RequestException JSONDecodeError msg)
  | TooDeep => raise RecursionError
  | TooLong msg => raise (ValueError msg)
  end.

(** [with open(path, "wb") as f: f.write(data)] *)
Definition write_file (path : string) (data : list byte) : M unit :=
  λ s, match os_error s (OpOpenWrite path) with
       | Some msg => mkRun (Raise (OSError msg)) s []
       | None => mkRun (Ok ()) (put_file path data s) []
       end.

(** *** [download_file] (lines 77-90) *)

Definition download_error_line (u : pyval) (e : string) : string :=
  "Error: Failed to download " +:+ py_str u +:+ ": " +:+ e.

Definition download_file (argv : list string) (u : pyval) (dest_path : string)
  : M unit :=
  if in_argv "--dry-run" argv then ret ()
  else
    try_except
      (response <- requests_get u ;;
       raise_for_status response ;;;
       write_file dest_path (content response))
      (λ e,
         print_err (download_error_line u e) ;;;
         sys_exit 1).

(** *** [main] (lines 29-75) *)

Definition example_line (filename : pyval) : string :=
  "  - " +:+ py_str filename.

(** The body of the loop [for example in examples] (lines 63-68), from the
    count so far to the new count. *)
Definition loop_body (argv : list string) (example : pyval) (file_count : nat)
  : M nat :=
  ty <- getitem example "type" ;;
  if py_eq_str ty "file" then
    filename <- getitem example "name" ;;
    download_url <- getitem example "download_url" ;;
    let file_count := (file_count + 1)%nat in
    print (example_line filename) ;;;
    dest <- path_div (TARGET_DIR // "examples") filename ;;
    download_file argv download_url dest ;;;
    ret file_count
  else ret file_count.

Fixpoint for_examples (argv : list string) (examples : list pyval)
    (file_count : nat) : M nat :=
  match examples with
  | [] => ret file_count
  | example :: rest =>
      file_count <- loop_body argv example file_count ;;
      for_examples argv rest file_count
  end.

(** The line printed at line 71. *)
Definition summary_line (argv : list string) (file_count : nat) : string :=
  let dry_run_message :=
    if in_argv "--dry-run" argv
    then " (dry run - no files were actually downloaded)" else "" in
  "Download completed" +:+ dry_run_message +:+ ". "
    +:+ pretty (file_count + 1)%nat +:+ " files would be downloaded to "
    +:+ TARGET_DIR +:+ "/".

Definition listing_error_line (e : string) : string :=
  "Error: Failed to get list of example files: " +:+ e.

Definition main (argv : list string) : M Z :=
  let dry_run := in_argv "--dry-run" argv in
  print ("Target directory: " +:+ TARGET_DIR) ;;;
  (if dry_run then print "Dry run mode: files will not be downloaded"
   else ret ()) ;;;
  (if negb dry_run then
     os_makedirs TARGET_DIR ;;;
     os_makedirs (TARGET_DIR // "examples")
   else ret ()) ;;;
  print "Downloading AKS API specs from GitHub..." ;;;
  print "Downloading managedClusters.json..." ;;;
  download_file argv (PStr main_spec_url) (TARGET_DIR // "managedClusters.json") ;;;
  print "Getting list of example files..." ;;;
  try_except
    (response <- requests_get (PStr examples_api_url) ;;
     raise_for_status response ;;;
     examples <- response_json response ;;
     print "Downloading example files..." ;;;
     items <- py_iter examples ;;
     file_count <- for_examples argv items 0 ;;
     print (summary_line argv file_count) ;;;
     ret 0%Z)
    (λ e,
       print_err (listing_error_line e) ;;;
       ret 1%Z).

(** *** The [__main__] block (lines 92-96) *)

Definition script (argv : list string) : M unit :=
  print ("Script arguments: " +:+ py_repr (PList (PStr <$> argv))) ;;;
  print ("Project root: " +:+ PROJECT_ROOT) ;;;
  print ("Target directory: " +:+ TARGET_DIR) ;;;
  code <- main argv ;;
  sys_exit code.

End Script.

(** ** Vocabulary of the specification *)

Section Vocabulary.

Context `{Env}.

(** *** The stages of [main] *)

(** Lines 31-46: the flag, the directories, the first progress lines. *)
Definition setup (argv : list string) : M unit :=
  let dry_run := in_argv "--dry-run" argv in
  print ("Target directory: " +:+ TARGET_DIR) ;;;
  (if dry_run then print "Dry run mode: files will not be downloaded"
   else ret ()) ;;;
  (if negb dry_run then
     os_makedirs TARGET_DIR ;;;
     os_makedirs (TARGET_DIR // "examples")
   else ret ()) ;;;
  print "Downloading AKS API specs from GitHub..." ;;;
  print "Downloading managedClusters.json...".

(** Lines 31-51: all that [main] does before it enters [try]. *)
Definition before_listing (argv : list string) : M unit :=
  setup argv ;;;
  download_file argv (PStr main_spec_url) (TARGET_DIR // "managedClusters.json") ;;;
  print "Getting list of example files...".

(** Lines 55-57: the listing step. *)
Definition listing_request : M pyval :=
  response <- requests_get (PStr examples_api_url) ;;
  raise_for_status response ;;;
  response_json response.

(** Lines 60-72: the rest of the [try] block. *)
Definition examples_loop (argv : list string) (examples : pyval) : M Z :=
  print "Downloading example files..." ;;;
  items <- py_iter examples ;;
  file_count <- for_examples argv items 0 ;;
  print (summary_line argv file_count) ;;;
  ret 0%Z.

(** Lines 73-75: the handler. *)
Definition listing_handler (e : string) : M Z :=
  print_err (listing_error_line e) ;;;
  ret 1%Z.

(** *** Requests *)

(** [requests.get(u)] followed by [raise_for_status] ends in a
    [RequestException] whose text is [msg]: a network error, or an HTTP
    error status. *)
Inductive download_fails (s : Sys) (u : pyval) : string → Prop :=
| network_error cls msg :
    requests_get_oracle s u = GetRaised cls msg →
    download_fails s u msg
| http_error_status r :
    requests_get_oracle s u = GetResponse r →
    (400 ≤ status_code r < 600)%Z →
    download_fails s u (http_error_msg r).

(** The request is answered by [r], whose status is no HTTP error. *)
Definition request_ok (s : Sys) (u : pyval) (r : Response) : Prop :=
  requests_get_oracle s u = GetResponse r ∧ ¬ (400 ≤ status_code r < 600)%Z.

(** The listing step fails: the request fails, or the decoder finds that
    the body is no JSON. *)
Inductive listing_fails (s : Sys) : string → Prop :=
| listing_request_fails msg :
    download_fails s (PStr examples_api_url) msg →
    listing_fails s msg
| listing_not_json r msg :
    request_ok s (PStr examples_api_url) r →
    json_loads r = NotJson msg →
    listing_fails s msg.

(** The listing step succeeds and decodes to [v]. *)
Definition listing_ok (s : Sys) (v : pyval) : Prop :=
  ∃ r, request_ok s (PStr examples_api_url) r ∧ json_loads r = Decoded v.

(** The request of the listing step is answered, and the decoder gives up
    on the body with an exception that is no [JSONDecodeError]. *)
Inductive listing_escapes (s : Sys) : exn → Prop :=
| body_too_deep r :
    request_ok s (PStr examples_api_url) r →
    json_loads r = TooDeep →
    listing_escapes s RecursionError
| body_too_long r msg :
    request_ok s (PStr examples_api_url) r →
    json_loads r = TooLong msg →
    listing_escapes s (ValueError msg).

(** A computation that leaves the outside world as it found it. *)
Definition stateless {A} (m : M A) : Prop := ∀ s, final (m s) = s.

(** A computation that lets no [RequestException] out. *)
Definition guarded {A} (m : M A) : Prop :=
  ∀ s, match outcome (m s) with
       | Raise e => is_RequestException e = false
       | Ok _ => True
       end.

End Vocabulary.

(** *** Listing entries *)

Definition entry_type (e : pyval) : option pyval :=
  match e with
  | PDict d => dict_get "type" d
  | _ => None
  end.

(** The entry is one the loop downloads. *)
Definition is_file_entry (e : pyval) : bool :=
  match entry_type e with
  | Some t => py_eq_str t "file"
  | None => false
  end.

(** The entry is one the loop can handle: a dict with a [type]; when the
    type is ["file"], a [name] that is a string and a [download_url]. *)
Definition well_formed_entry (e : pyval) : bool :=
  match e with
  | PDict d =>
      match dict_get "type" d with
      | Some t =>
          if py_eq_str t "file" then
            match dict_get "name" d, dict_get "download_url" d with
            | Some (PStr _), Some _ => true
            | _, _ => false
            end
          else true
      | None => false
      end
  | _ => false
  end.

Definition entry_name (e : pyval) : string :=
  match e with
  | PDict d => match dict_get "name" d with Some (PStr n) => n | _ => "" end
  | _ => ""
  end.

Definition entry_url (e : pyval) : pyval :=
  match e with
  | PDict d => default PNone (dict_get "download_url" d)
  | _ => PNone
  end.

(** The entries the loop downloads, in the order of the listing. *)
Definition file_entries (items : list pyval) : list pyval :=
  List.filter is_file_entry items.

(** [e] is a file entry called [name], to be fetched from [u]. *)
Inductive file_entry : pyval → string → pyval → Prop :=
| file_entry_intro d name u :
    dict_get "type" d = Some (PStr "file") →
    dict_get "name" d = Some (PStr name) →
    dict_get "download_url" d = Some u →
    file_entry (PDict d) name u.

(** [e] is a dict in which the loop looks up [key] and does not find it. *)
Inductive lacks_key : pyval → string → Prop :=
| lacks_type d :
    dict_get "type" d = None →
    lacks_key (PDict d) "type"
| lacks_name d :
    dict_get "type" d = Some (PStr "file") →
    dict_get "name" d = None →
    lacks_key (PDict d) "name"
| lacks_download_url d filename :
    dict_get "type" d = Some (PStr "file") →
    dict_get "name" d = Some filename →
    dict_get "download_url" d = None →
    lacks_key (PDict d) "download_url".

Section Runs.

Context `{Env}.

(** The operating system refuses nothing, and every request for one of
    [urls] is answered without an HTTP error. *)
Definition calm (urls : list pyval) : Prop :=
  (∀ s op, os_error s op = None) ∧
  (∀ s u, u ∈ urls → ∃ r, request_ok s u r).

(** What the network serves for [u] in the world [s]. *)
Definition body_of (s : Sys) (u : pyval) : list byte :=
  match requests_get_oracle s u with
  | GetResponse r => content r
  | GetRaised _ _ => []
  end.

(** The world after [u] was requested in [s] and saved as [dest]. *)
Definition fetched (u : pyval) (dest : string) (s : Sys) : Sys :=
  put_file dest (body_of s u) (log_request u s).

Definition example_dest (e : pyval) : string :=
  TARGET_DIR // "examples" // entry_name e.

(** The world after the file entries [es] were downloaded one by one. *)
Definition fetched_all (es : list pyval) (s : Sys) : Sys :=
  foldl (λ s e, fetched (entry_url e) (example_dest e) s) s es.

(** The lines the loop prints for the file entries [es]. *)
Definition example_lines (es : list pyval) : list output :=
  (λ e, Out (example_line (PStr (entry_name e)))) <$> es.

(** A run of [main] from [s] in which an individual download fails: the
    main specification, or an example after the entries before it went
    well.  [s'] is the world in which the failing request is made, [u] its
    URL, [out] what was printed until then and [msg] the text of the
    failure. *)
Inductive download_failure (argv : list string) (s : Sys)
  : Sys → pyval → list output → string → Prop :=
| main_spec_failure s0 out0 msg :
    setup argv s = mkRun (Ok ()) s0 out0 →
    download_fails s0 (PStr main_spec_url) msg →
    download_failure argv s s0 (PStr main_spec_url) out0 msg
| example_failure s1 out1 pre e post n s2 out2 name u msg :
    before_listing argv s = mkRun (Ok ()) s1 out1 →
    listing_ok s1 (PList (pre ++ e :: post)) →
    for_examples argv pre 0 (log_request (PStr examples_api_url) s1)
      = mkRun (Ok n) s2 out2 →
    file_entry e name u →
    download_fails s2 u msg →
    download_failure argv s s2 u
      (out1 ++ [Out "Downloading example files..."] ++ out2
            ++ [Out (example_line (PStr name))]) msg.

(** The reading of "a non-2xx status is a failure of the listing step that
    ends in the handler", for one run of [main]. *)
Definition non_2xx_is_recovered (argv : list string) (s : Sys) : Prop :=
  ∀ s1 out1 r,
    before_listing argv s = mkRun (Ok ()) s1 out1 →
    requests_get_oracle s1 (PStr examples_api_url) = GetResponse r →
    ¬ (200 ≤ status_code r < 300)%Z →
    outcome (main argv s) = Ok 1%Z.

(** The reading of "a malformed-JSON listing response never escapes that
    handler", for one run of [main]: whenever the body of the listing does
    not decode to a value, [main] returns 1. *)
Definition malformed_json_is_recovered (argv : list string) (s : Sys) : Prop :=
  ∀ s1 out1 r,
    before_listing argv s = mkRun (Ok ()) s1 out1 →
    requests_get_oracle s1 (PStr examples_api_url) = GetResponse r →
    (∀ v, json_loads r ≠ Decoded v) →
    outcome (main argv s) = Ok 1%Z.

(** The reading of "the exit code is 1 exactly when the listing request
    fails", for one run of the script. *)
Definition exit_1_iff_listing_fails (argv : list string) (s : Sys) : Prop :=
  exit_status (outcome (script argv s)) = 1%Z ↔
  ∃ s1 out1 msg,
    before_listing argv s = mkRun (Ok ()) s1 out1 ∧ listing_fails s1 msg.

End Runs.

(** ** A small environment to run the script in *)

Definition empty_sys : Sys := mkSys ∅ ∅ [].

Definition demo_entry (name ty : string) : pyval :=
  PDict [("name", PStr name); ("type", PStr ty);
         ("download_url", PStr ("https://host/" +:+ name))].

(** Two example files around a subdirectory. *)
Definition demo_listing : pyval :=
  PList [demo_entry "a.json" "file"; demo_entry "sub" "dir";
         demo_entry "b.json" "file"].

(** A listing whose second entry has no [type]. *)
Definition demo_listing_no_type : pyval :=
  PList [demo_entry "a.json" "file"; PDict [("name", PStr "b.json")]].

(** A decoder that knows the bodies the demo network serves. *)
Definition demo_json (r : Response) : json_result :=
  let text := String.string_of_list_byte (content r) in
  if String.eqb text "listing" then Decoded demo_listing
  else if String.eqb text "listing-no-type" then Decoded demo_listing_no_type
  else if String.eqb text "[]" then Decoded (PList [])
  else NotJson "Expecting value: line 1 column 1 (char 0)".

Definition utf8_response (status : Z) (why url : string) (body : list byte)
  : Response :=
  mkResponse status why url body (Some "utf-8").

Definition demo_response (status : Z) (why body : string) : get_result :=
  GetResponse (utf8_response status why examples_api_url
                 (String.list_byte_of_string body)).

(** The listing URL is answered by [listing]; the URLs in [broken] by a
    status 500; every other URL by a small document. *)
Definition demo_network (listing : get_result) (broken : list string)
  : Sys → pyval → get_result :=
  λ _ u,
    match u with
    | PStr x =>
        if String.eqb x examples_api_url then listing
        else if bool_decide (x ∈ broken) then
          GetResponse (utf8_response 500 "Internal Server Error" x [])
        else GetResponse (utf8_response 200 "OK" x (String.list_byte_of_string "{}"))
    | _ => GetRaised MissingSchema "Invalid URL: No scheme supplied"
    end.

(** [repr] on the values of the model, escapes left aside. *)
Fixpoint demo_repr (v : pyval) : string :=
  match v with
  | PNone => "None"
  | PBool true => "True"
  | PBool false => "False"
  | PNum lit => lit
  | PStr s => "'" +:+ s +:+ "'"
  | PList items => "[" +:+ String.concat ", " (List.map demo_repr items) +:+ "]"
  | PDict items =>
      "{" +:+ String.concat ", "
                (List.map (λ kv, match kv with
                                 | (k, x) => "'" +:+ k +:+ "': " +:+ demo_repr x
                                 end) items)
          +:+ "}"
  end.

Definition demo_env (listing : get_result) (broken : list string) : Env :=
  mkEnv (demo_network listing broken) demo_json (λ _ _, None)
        (λ p q, p +:+ "/" +:+ q) demo_repr "/repo".

Definition demo_argv : list string := ["scripts/download_aks_specs.py"].
Definition demo_argv_dry : list string :=
  ["scripts/download_aks_specs.py"; "--dry-run"].

(** The network serves the listing and every file. *)
Definition demo_ok : Env :=
  demo_env (demo_response 200 "OK" "listing") [].

(** The second example file is answered by a status 500. *)
Definition demo_broken : Env :=
  demo_env (demo_response 200 "OK" "listing") ["https://host/b.json"].

(** The listing is answered by a status 300 with an empty array. *)
Definition demo_300 : Env :=
  demo_env (demo_response 300 "Multiple Choices" "[]") [].

(** The listing is answered by a page that is no JSON. *)
Definition demo_not_json : Env :=
  demo_env (demo_response 200 "OK" "<html>") [].

(** The listing is answered by a status 404. *)
Definition demo_404 : Env :=
  demo_env (demo_response 404 "Not Found" "") [].

(** The listing has an entry without [type]. *)
Definition demo_no_type : Env :=
  demo_env (demo_response 200 "OK" "listing-no-type") [].

(** ** More environments *)

(** A listing of one file entry whose [name] is [None]. *)
Definition demo_listing_null_name : pyval :=
  PList [PDict [("name", PNone); ("type", PStr "file");
                ("download_url", PStr "https://host/x")]].

(** [n] opening brackets: a body that is no JSON and is nested [n] deep. *)
Fixpoint deep_text (n : nat) : string :=
  match n with
  | O => ""
  | S n => "[" +:+ deep_text n
  end.

(** The decoder of the demo network, with more bodies; on 2000 opening
    brackets it runs out of stack. *)
Definition demo_json_more (r : Response) : json_result :=
  let text := String.string_of_list_byte (content r) in
  if String.eqb text "null" then Decoded PNone
  else if String.eqb text "{}" then Decoded (PDict [])
  else if String.eqb text "listing-null-name" then Decoded demo_listing_null_name
  else if String.eqb text (deep_text 2000) then TooDeep
  else if String.eqb text "listing-absolute" then
    Decoded (PList [demo_entry "a.json" "file";
                    demo_entry "/tmp/elsewhere.json" "file"])
  else demo_json r.

Definition demo_env_with (listing : get_result) (broken : list string)
    (os : Sys → fs_op → option string) : Env :=
  mkEnv (demo_network listing broken) demo_json_more os
        (λ p q, p +:+ "/" +:+ q) demo_repr "/repo".

(** No directory may be made. *)
Definition demo_no_dirs : Env :=
  demo_env_with (demo_response 200 "OK" "listing") []
    (λ _ op, match op with
             | OpMakedirs _ => Some "[Errno 13] Permission denied"
             | OpOpenWrite _ => None
             end).

(** The second example file may not be opened. *)
Definition demo_no_b : Env :=
  demo_env_with (demo_response 200 "OK" "listing") []
    (λ _ op, match op with
             | OpOpenWrite p =>
                 if String.eqb p "/repo/azure_spec/examples/b.json"
                 then Some "[Errno 13] Permission denied" else None
             | OpMakedirs _ => None
             end).

(** The listing is [null], an empty object, a file entry named [None]. *)
Definition demo_null : Env :=
  demo_env_with (demo_response 200 "OK" "null") [] (λ _ _, None).
Definition demo_object : Env :=
  demo_env_with (demo_response 200 "OK" "{}") [] (λ _ _, None).
Definition demo_null_name : Env :=
  demo_env_with (demo_response 200 "OK" "listing-null-name") [] (λ _ _, None).

(** A join that, like pathlib's, returns an absolute second part as it
    is; the listing names a file by an absolute path. *)
Definition demo_pathlib : Env :=
  mkEnv (demo_network (demo_response 200 "OK" "listing-absolute") [])
        demo_json_more (λ _ _, None)
        (λ p q, if String.prefix "/" q then q else p +:+ "/" +:+ q)
        demo_repr "/repo".

(** The listing is 2000 opening brackets. *)
Definition demo_deep : Env :=
  demo_env_with (demo_response 200 "OK" (deep_text 2000)) [] (λ _ _, None).

(** ** Vocabulary for whole runs *)

(** An exception the script may let out: no [RequestException], and
    [SystemExit] with code 1 only. *)
Definition tame (e : exn) : Prop :=
  match e with
  | RequestException _ _ => False
  | SystemExit code => code = 1%Z
  | _ => True
  end.

Definition tamely {A} (m : M A) : Prop :=
  ∀ s, match outcome (m s) with
       | Raise e => tame e
       | Ok _ => True
       end.

(** The lines a run wrote on the error stream. *)
Definition errors {A} (r : Run A) : list output :=
  List.filter is_err (printed r).

(** A computation that writes on the error stream exactly when it ends in
    [SystemExit], and then one line. *)
Definition loud_exit {A} (m : M A) : Prop :=
  ∀ s, match outcome (m s) with
       | Raise (SystemExit _) => ∃ line, errors (m s) = [Err line]
       | _ => errors (m s) = []
       end.

(** The file map after the bindings [kvs] were written one by one. *)
Definition insert_all (kvs : list (string * list byte))
    (m : gmap string (list byte)) : gmap string (list byte) :=
  foldl (λ m kv, <[kv.1 := kv.2]> m) m kvs.

Section WholeRuns.

Context `{Env}.

(** From [s] to [s'] nothing was taken away: every directory and every
    file of [s] is still there, and the directories that came on top are
    among [TARGET_DIR] and [TARGET_DIR / "examples"]. *)
Definition grown (s s' : Sys) : Prop :=
  dirs s ⊆ dirs s' ∧
  dirs s' ⊆ {[TARGET_DIR; TARGET_DIR // "examples"]} ∪ dirs s ∧
  (∀ p, is_Some (files s !! p) → is_Some (files s' !! p)).

(** A computation that only adds to the world. *)
Definition adding {A} (m : M A) : Prop :=
  ∀ s, grown s (final (m s)).

(** The network answers a request the same way whatever happened before. *)
Definition steady : Prop :=
  ∀ s s' u, requests_get_oracle s u = requests_get_oracle s' u.

(** The world in which a real run asks for the listing, when nothing went
    wrong before. *)
Definition at_listing (s : Sys) : Sys :=
  fetched (PStr main_spec_url) (TARGET_DIR // "managedClusters.json")
    (add_dir (TARGET_DIR // "examples") (add_dir TARGET_DIR s)).

(** The world after a real run in which nothing went wrong. *)
Definition after_run (items : list pyval) (s : Sys) : Sys :=
  fetched_all (file_entries items)
    (log_request (PStr examples_api_url) (at_listing s)).

End WholeRuns.

(** * Properties *)

Section Properties.

Context `{Env}.

Lemma append_nonempty (a b : string) : b ≠ "" → a +:+ b ≠ "".
Proof.
  intros Hb. destruct a as [|c a]; simpl; [exact Hb | discriminate].
Qed.

Lemma http_error_msg_nonempty r :
  http_error_msg r ≠ "" ↔ (400 ≤ status_code r < 600)%Z.
Proof.
  unfold http_error_msg.
  repeat case_bool_decide; split; intros Hx; try lia; try done;
    apply append_nonempty; discriminate.
Qed.

Lemma raise_for_status_error r :
  (400 ≤ status_code r < 600)%Z →
  raise_for_status r = raise (RequestException HTTPError (http_error_msg r)).
Proof.
  intros Hr. unfold raise_for_status.
  rewrite bool_decide_eq_true_2; [done | by apply http_error_msg_nonempty].
Qed.

Lemma raise_for_status_fine r :
  ¬ (400 ≤ status_code r < 600)%Z → raise_for_status r = ret ().
Proof.
  intros Hr. unfold raise_for_status.
  rewrite bool_decide_eq_false_2; [done |].
  intros Hx. by apply Hr, http_error_msg_nonempty.
Qed.

Local Arguments String.append : simpl never.
Local Arguments pretty : simpl never.
Local Arguments put_file : simpl never.
Local Arguments add_dir : simpl never.
Local Arguments log_request : simpl never.
Local Arguments main : simpl never.
Local Arguments script : simpl never.
Local Arguments before_listing : simpl never.
Local Arguments setup : simpl never.
Local Arguments listing_request : simpl never.
Local Arguments examples_loop : simpl never.
Local Arguments download_file : simpl never.
Local Arguments loop_body : simpl never.

Lemma download_file_dry argv u dest s :
  in_argv "--dry-run" argv = true →
  download_file argv u dest s = mkRun (Ok ()) s [].
Proof. intros Hdry. unfold download_file. by rewrite Hdry. Qed.

Lemma download_file_fails argv u dest s msg :
  in_argv "--dry-run" argv = false →
  download_fails s u msg →
  download_file argv u dest s =
    mkRun (Raise (SystemExit 1)) (log_request u s) [Err (download_error_line u msg)].
Proof.
  intros Hdry Hfail. unfold download_file. rewrite Hdry.
  unfold try_except, bind, and_then, requests_get.
  destruct Hfail as [cls msg Hget | r Hget Hr]; rewrite Hget; cbn.
  - done.
  - rewrite (raise_for_status_error r Hr). done.
Qed.

Lemma download_file_written argv u dest s r :
  in_argv "--dry-run" argv = false →
  request_ok s u r →
  os_error (log_request u s) (OpOpenWrite dest) = None →
  download_file argv u dest s =
    mkRun (Ok ()) (put_file dest (content r) (log_request u s)) [].
Proof.
  intros Hdry [Hget Hr] Hos. unfold download_file. rewrite Hdry.
  unfold try_except, bind, and_then, requests_get. rewrite Hget. cbn.
  rewrite (raise_for_status_fine r Hr). cbn.
  unfold write_file. rewrite Hos. done.
Qed.

Lemma download_file_refused argv u dest s r msg :
  in_argv "--dry-run" argv = false →
  request_ok s u r →
  os_error (log_request u s) (OpOpenWrite dest) = Some msg →
  download_file argv u dest s = mkRun (Raise (OSError msg)) (log_request u s) [].
Proof.
  intros Hdry [Hget Hr] Hos. unfold download_file. rewrite Hdry.
  unfold try_except, bind, and_then, requests_get. rewrite Hget. cbn.
  rewrite (raise_for_status_fine r Hr). cbn.
  unfold write_file. rewrite Hos. done.
Qed.


(** Lists of printed lines, up to the nesting of [++]. *)
Ltac list_norm :=
  repeat (progress (rewrite ?app_nil_r, <- ?app_assoc; cbn [app])).

(** ** Laws of the monad *)

Lemma bind_assoc {A B C} (m : M A) (k : A → M B) (h : B → M C) s :
  bind (bind m k) h s = bind m (λ a, bind (k a) h) s.
Proof.
  unfold bind, and_then.
  destruct (m s) as [[a|e] s1 out1]; cbn; [|done].
  destruct (k a s1) as [[b|e] s2 out2]; cbn; [|done].
  by rewrite app_assoc.
Qed.

Lemma bind_ext {A B} (m : M A) (k k' : A → M B) s :
  (∀ a s', k a s' = k' a s') → bind m k s = bind m k' s.
Proof.
  intros Hk. unfold bind, and_then.
  destruct (m s) as [[a|e] s1 out1]; cbn; [|done]. by rewrite Hk.
Qed.

Lemma try_except_ext {A} (body body' : M A) (h : string → M A) s :
  (∀ s', body s' = body' s') → try_except body h s = try_except body' h s.
Proof. intros Hb. unfold try_except. by rewrite Hb. Qed.

Lemma bind_ok {A B} (m : M A) (k : A → M B) s a s1 out1 :
  m s = mkRun (Ok a) s1 out1 →
  bind m k s = mkRun (outcome (k a s1)) (final (k a s1)) (out1 ++ printed (k a s1)).
Proof. intros Hm. unfold bind, and_then. by rewrite Hm. Qed.

Lemma bind_raise {A B} (m : M A) (k : A → M B) s e s1 out1 :
  m s = mkRun (Raise e) s1 out1 →
  bind m k s = mkRun (Raise e) s1 out1.
Proof. intros Hm. unfold bind, and_then. by rewrite Hm. Qed.

(** [main] is its stages in a row. *)
Lemma main_stages argv s :
  main argv s =
    (before_listing argv ;;;
     try_except (v <- listing_request ;; examples_loop argv v) listing_handler) s.
Proof.
  unfold main, before_listing, setup, listing_request, examples_loop, listing_handler.
  repeat (rewrite ?bind_assoc; apply bind_ext; intros ? ?).
  unfold try_except.
  assert (Heq : ∀ t,
    (response <- requests_get (PStr examples_api_url);;
     raise_for_status response;;;
     examples <- response_json response;;
     print "Downloading example files...";;;
     items <- py_iter examples;;
     file_count <- for_examples argv items 0;;
     print (summary_line argv file_count);;; ret 0%Z) t =
    (v <- (response <- requests_get (PStr examples_api_url);;
           raise_for_status response;;; response_json response);;
     print "Downloading example files...";;;
     items <- py_iter v;;
     file_count <- for_examples argv items 0;;
     print (summary_line argv file_count);;; ret 0%Z) t).
  { intros t. rewrite bind_assoc. apply bind_ext; intros r t'.
    by rewrite bind_assoc. }
  by rewrite Heq.
Qed.


(** ** No [RequestException] leaves a download or the loop *)

Lemma guarded_ret {A} (a : A) : guarded (ret a).
Proof. by intros s. Qed.

Lemma guarded_print line : guarded (print line).
Proof. by intros s. Qed.

Lemma guarded_print_err line : guarded (print_err line).
Proof. by intros s. Qed.

Lemma guarded_raise {A} e : is_RequestException e = false → guarded (@raise A e).
Proof. by intros He s. Qed.

Lemma guarded_bind {A B} (m : M A) (k : A → M B) :
  guarded m → (∀ a, guarded (k a)) → guarded (bind m k).
Proof.
  intros Hm Hk s. specialize (Hm s). unfold bind, and_then.
  destruct (m s) as [[a|e] s1 out1]; cbn in *; [apply Hk | done].
Qed.

Lemma guarded_try_except {A} (body : M A) (h : string → M A) :
  (∀ e, guarded (h e)) → guarded (try_except body h).
Proof.
  intros Hh s. unfold try_except.
  destruct (body s) as [[a|e] s1 out1]; cbn; [done|].
  destruct e; cbn; try done. apply Hh.
Qed.

Lemma guarded_getitem v key : guarded (getitem v key).
Proof.
  intros s. destruct v; cbn; try done. by destruct (dict_get key items).
Qed.

Lemma guarded_path_div path v : guarded (path_div path v).
Proof. intros s. by destruct v. Qed.

Lemma guarded_py_iter v : guarded (py_iter v).
Proof. intros s. by destruct v. Qed.

Create HintDb guard.
#[local] Hint Resolve guarded_ret guarded_print guarded_print_err guarded_bind
  guarded_try_except guarded_getitem guarded_path_div guarded_py_iter : guard.

Lemma guarded_download_file argv u dest : guarded (download_file argv u dest).
Proof.
  unfold download_file. destruct (in_argv "--dry-run" argv); [auto with guard|].
  apply guarded_try_except. intros e. apply guarded_bind; [auto with guard|].
  intros _. by apply guarded_raise.
Qed.

#[local] Hint Resolve guarded_download_file : guard.

Lemma guarded_loop_body argv example n : guarded (loop_body argv example n).
Proof.
  unfold loop_body. apply guarded_bind; [auto with guard|]. intros ty.
  destruct (py_eq_str ty "file"); auto 10 with guard.
Qed.

#[local] Hint Resolve guarded_loop_body : guard.

Lemma guarded_for_examples argv items n : guarded (for_examples argv items n).
Proof.
  revert n. induction items as [|e items IH]; intros n; cbn; auto with guard.
Qed.

#[local] Hint Resolve guarded_for_examples : guard.

Lemma guarded_examples_loop argv v : guarded (examples_loop argv v).
Proof. unfold examples_loop. auto 10 with guard. Qed.

(** ** The listing step *)

Lemma listing_request_raises s msg :
  listing_fails s msg →
  ∃ cls, listing_request s =
    mkRun (Raise (RequestException cls msg))
          (log_request (PStr examples_api_url) s) [].
Proof.
  intros Hfail. unfold listing_request, bind, and_then, requests_get.
  destruct Hfail as [msg Hfail | r msg [Hget Hr] Hjson].
  - destruct Hfail as [cls msg Hget | r Hget Hr]; rewrite Hget; cbn.
    + by exists cls.
    + rewrite (raise_for_status_error r Hr). by exists HTTPError.
  - rewrite Hget; cbn. rewrite (raise_for_status_fine r Hr); cbn.
    unfold response_json. rewrite Hjson. by exists JSONDecodeError.
Qed.

Lemma listing_request_ok s v :
  listing_ok s v →
  listing_request s = mkRun (Ok v) (log_request (PStr examples_api_url) s) [].
Proof.
  intros (r & [Hget Hr] & Hjson).
  unfold listing_request, bind, and_then, requests_get.
  rewrite Hget; cbn. rewrite (raise_for_status_fine r Hr); cbn.
  unfold response_json. by rewrite Hjson.
Qed.

Lemma listing_cases s :
  (∃ msg, listing_fails s msg) ∨ (∃ v, listing_ok s v) ∨
  (∃ e, listing_escapes s e).
Proof.
  destruct (requests_get_oracle s (PStr examples_api_url)) as [cls msg|r] eqn:Hget.
  - left. exists msg. by eapply listing_request_fails, network_error.
  - destruct (decide (400 ≤ status_code r < 600)%Z) as [Hr|Hr].
    + left. eexists. by eapply listing_request_fails, http_error_status.
    + destruct (json_loads r) as [v|msg| |msg] eqn:Hjson.
      * right. left. exists v, r. done.
      * left. exists msg. by eapply listing_not_json.
      * right. right. exists RecursionError. by eapply body_too_deep.
      * right. right. exists (ValueError msg). by eapply body_too_long.
Qed.

Lemma listing_request_escapes s e :
  listing_escapes s e →
  listing_request s = mkRun (Raise e) (log_request (PStr examples_api_url) s) [] ∧
  is_RequestException e = false.
Proof.
  intros Hesc. unfold listing_request, bind, and_then, requests_get.
  destruct Hesc as [r [Hget Hr] Hjson | r msg [Hget Hr] Hjson];
    rewrite Hget; cbn; rewrite (raise_for_status_fine r Hr); cbn;
    unfold response_json; by rewrite Hjson.
Qed.

Lemma listing_fails_not_ok s msg v : listing_fails s msg → listing_ok s v → False.
Proof.
  intros Hfail (r & [Hget Hr] & Hjson).
  destruct Hfail as [msg Hfail | r' msg [Hget' Hr'] Hjson'].
  - destruct Hfail as [cls msg Hget' | r' Hget' Hr']; congruence.
  - congruence.
Qed.

(** ** [main] from the listing step on *)

Lemma main_listing_fails argv s s1 out1 msg :
  before_listing argv s = mkRun (Ok ()) s1 out1 →
  listing_fails s1 msg →
  main argv s =
    mkRun (Ok 1%Z) (log_request (PStr examples_api_url) s1)
          (out1 ++ [Err (listing_error_line msg)]).
Proof.
  intros Hbefore Hfail. rewrite main_stages.
  rewrite (bind_ok _ _ _ _ _ _ Hbefore).
  destruct (listing_request_raises _ _ Hfail) as [cls Hrun].
  unfold try_except. rewrite (bind_raise _ _ _ _ _ _ Hrun). done.
Qed.

Lemma main_listing_ok argv s s1 out1 v :
  before_listing argv s = mkRun (Ok ()) s1 out1 →
  listing_ok s1 v →
  main argv s =
    let r := examples_loop argv v (log_request (PStr examples_api_url) s1) in
    mkRun (outcome r) (final r) (out1 ++ printed r).
Proof.
  intros Hbefore Hok. rewrite main_stages.
  rewrite (bind_ok _ _ _ _ _ _ Hbefore).
  unfold try_except. rewrite (bind_ok _ _ _ _ _ _ (listing_request_ok _ _ Hok)).
  pose proof (guarded_examples_loop argv v
                (log_request (PStr examples_api_url) s1)) as Hg.
  cbv beta zeta.
  destruct (examples_loop argv v _) as [[code|e] s2 out2]; cbn in *; [done|].
  by destruct e.
Qed.

Lemma main_listing_escapes argv s s1 out1 e :
  before_listing argv s = mkRun (Ok ()) s1 out1 →
  listing_escapes s1 e →
  main argv s = mkRun (Raise e) (log_request (PStr examples_api_url) s1) out1.
Proof.
  intros Hbefore Hesc. rewrite main_stages.
  rewrite (bind_ok _ _ _ _ _ _ Hbefore).
  destruct (listing_request_escapes _ _ Hesc) as [Hrun He].
  unfold try_except. rewrite (bind_raise _ _ _ _ _ _ Hrun).
  destruct e; try discriminate He; cbn; by rewrite app_nil_r.
Qed.

Lemma main_before_raises argv s e s1 out1 :
  before_listing argv s = mkRun (Raise e) s1 out1 →
  main argv s = mkRun (Raise e) s1 out1.
Proof.
  intros Hbefore. rewrite main_stages. by rewrite (bind_raise _ _ _ _ _ _ Hbefore).
Qed.


(** ** One turn of the loop *)

Lemma py_eq_str_file t : py_eq_str t "file" = true → t = PStr "file".
Proof.
  destruct t; cbn; try done. intros Heq. by apply String.eqb_eq in Heq as ->.
Qed.

Lemma loop_body_other argv e t n s :
  entry_type e = Some t → py_eq_str t "file" = false →
  loop_body argv e n s = mkRun (Ok n) s [].
Proof.
  intros Hty Hne. destruct e; try done. cbn in Hty.
  unfold loop_body, bind, and_then, getitem. rewrite Hty. cbn. by rewrite Hne.
Qed.

Lemma loop_body_file argv e name u n s :
  file_entry e name u →
  loop_body argv e n s =
    (print (example_line (PStr name)) ;;;
     download_file argv u (TARGET_DIR // "examples" // name) ;;;
     ret (n + 1)%nat) s.
Proof.
  intros [d name' u' Hty Hname Hurl].
  unfold loop_body, bind, and_then, getitem. rewrite Hty. cbn.
  rewrite Hname. cbn. rewrite Hurl. done.
Qed.

Lemma loop_body_lacks argv e key n s :
  lacks_key e key →
  loop_body argv e n s = mkRun (Raise (KeyError key)) s [].
Proof.
  intros Hlack. unfold loop_body, bind, and_then, getitem.
  destruct Hlack as [d Hty | d Hty Hname | d x Hty Hname Hurl]; rewrite Hty; cbn.
  - done.
  - by rewrite Hname.
  - rewrite Hname. cbn. by rewrite Hurl.
Qed.

Lemma for_examples_app argv items1 items2 n s :
  for_examples argv (items1 ++ items2) n s =
    (n' <- for_examples argv items1 n ;; for_examples argv items2 n') s.
Proof.
  revert n s. induction items1 as [|e items1 IH]; intros n s; cbn.
  - unfold bind, and_then. cbn. by destruct (for_examples argv items2 n s).
  - rewrite bind_assoc. by apply bind_ext.
Qed.

Lemma well_formed_file_entry e :
  well_formed_entry e = true → is_file_entry e = true →
  file_entry e (entry_name e) (entry_url e).
Proof.
  destruct e as [| | | | |d]; try done. unfold well_formed_entry, is_file_entry.
  cbn. destruct (dict_get "type" d) as [t|] eqn:Hty; [|done].
  intros Hwf Hfile. rewrite Hfile in Hwf. apply py_eq_str_file in Hfile as ->.
  destruct (dict_get "name" d) as [[| | |name| |]|] eqn:Hname; try done.
  destruct (dict_get "download_url" d) as [u|] eqn:Hurl; [|done].
  by constructor.
Qed.

Lemma well_formed_other_entry e :
  well_formed_entry e = true → is_file_entry e = false →
  ∃ t, entry_type e = Some t ∧ py_eq_str t "file" = false.
Proof.
  destruct e as [| | | | |d]; try done. unfold well_formed_entry, is_file_entry.
  cbn. destruct (dict_get "type" d) as [t|] eqn:Hty; [|done]. eauto.
Qed.

Lemma file_entry_is_file e name u : file_entry e name u → is_file_entry e = true.
Proof. intros [d name' u' Hty _ _]. unfold is_file_entry. cbn. by rewrite Hty. Qed.

Lemma file_entry_fields e name u :
  file_entry e name u → entry_name e = name ∧ entry_url e = u.
Proof. intros [d name' u' _ Hname Hurl]. cbn. by rewrite Hname, Hurl. Qed.

(** ** Computations that leave the world alone *)

Lemma stateless_ret {A} (a : A) : stateless (ret a).
Proof. by intros s. Qed.

Lemma stateless_raise {A} e : stateless (@raise A e).
Proof. by intros s. Qed.

Lemma stateless_print line : stateless (print line).
Proof. by intros s. Qed.

Lemma stateless_print_err line : stateless (print_err line).
Proof. by intros s. Qed.

Lemma stateless_bind {A B} (m : M A) (k : A → M B) :
  stateless m → (∀ a, stateless (k a)) → stateless (bind m k).
Proof.
  intros Hm Hk s. specialize (Hm s). unfold bind, and_then.
  destruct (m s) as [[a|e] s1 out1]; cbn in *; [|done]. by rewrite Hk.
Qed.

Lemma stateless_getitem v key : stateless (getitem v key).
Proof.
  intros s. destruct v; cbn; try done. by destruct (dict_get key items).
Qed.

Lemma stateless_path_div path v : stateless (path_div path v).
Proof. intros s. by destruct v. Qed.

Lemma stateless_py_iter v : stateless (py_iter v).
Proof. intros s. by destruct v. Qed.

Lemma stateless_raise_for_status r : stateless (raise_for_status r).
Proof. intros s. unfold raise_for_status. by case_bool_decide. Qed.

Lemma stateless_response_json r : stateless (response_json r).
Proof. intros s. unfold response_json. by destruct (json_loads r). Qed.

Create HintDb frame.
#[local] Hint Resolve stateless_ret stateless_raise stateless_print
  stateless_print_err stateless_bind stateless_getitem stateless_path_div
  stateless_py_iter stateless_raise_for_status stateless_response_json : frame.

(** The helper under [--dry-run]: nothing in the world moves. *)
Lemma stateless_download_file argv u dest :
  in_argv "--dry-run" argv = true → stateless (download_file argv u dest).
Proof. intros Hdry s. by rewrite download_file_dry. Qed.

Lemma stateless_loop_body argv e n :
  in_argv "--dry-run" argv = true → stateless (loop_body argv e n).
Proof.
  intros Hdry. unfold loop_body. apply stateless_bind; [auto with frame|].
  intros ty. destruct (py_eq_str ty "file");
    auto 10 using stateless_download_file with frame.
Qed.

Lemma stateless_for_examples argv items n :
  in_argv "--dry-run" argv = true → stateless (for_examples argv items n).
Proof.
  intros Hdry. revert n.
  induction items as [|e items IH]; intros n; cbn;
    auto using stateless_loop_body with frame.
Qed.

Lemma stateless_examples_loop argv v :
  in_argv "--dry-run" argv = true → stateless (examples_loop argv v).
Proof.
  intros Hdry. unfold examples_loop.
  auto 10 using stateless_for_examples with frame.
Qed.

Lemma before_listing_dry argv s :
  in_argv "--dry-run" argv = true →
  before_listing argv s =
    mkRun (Ok ()) s
      [Out ("Target directory: " +:+ TARGET_DIR);
       Out "Dry run mode: files will not be downloaded";
       Out "Downloading AKS API specs from GitHub...";
       Out "Downloading managedClusters.json...";
       Out "Getting list of example files..."].
Proof.
  intros Hdry. unfold before_listing, setup, download_file. by rewrite Hdry.
Qed.

(** Under [--dry-run] the one thing [main] does to the world is the listing
    request. *)
Lemma main_dry_final argv s :
  in_argv "--dry-run" argv = true →
  final (main argv s) = log_request (PStr examples_api_url) s.
Proof.
  intros Hdry. pose proof (before_listing_dry argv s Hdry) as Hbefore.
  destruct (listing_cases s) as [[msg Hfail]|[[v Hok]|[e Hesc]]].
  - by rewrite (main_listing_fails _ _ _ _ _ Hbefore Hfail).
  - rewrite (main_listing_ok _ _ _ _ _ Hbefore Hok). cbn [final].
    by apply stateless_examples_loop.
  - by rewrite (main_listing_escapes _ _ _ _ _ Hbefore Hesc).
Qed.


(** ** The [__main__] block *)

Lemma script_run argv s :
  script argv s =
    mkRun (match outcome (main argv s) with
           | Ok code => Raise (SystemExit code)
           | Raise e => Raise e
           end)
          (final (main argv s))
          ([Out ("Script arguments: " +:+ py_repr (PList (PStr <$> argv)));
            Out ("Project root: " +:+ PROJECT_ROOT);
            Out ("Target directory: " +:+ TARGET_DIR)] ++ printed (main argv s)).
Proof.
  unfold script, bind, and_then, print, sys_exit, raise. cbn.
  destruct (main argv s) as [[code|e] s1 out1]; cbn; [|done].
  by rewrite app_nil_r.
Qed.

Lemma script_exit_status argv s :
  exit_status (outcome (script argv s)) =
    match outcome (main argv s) with
    | Ok code => code
    | Raise e => exit_status (@Raise unit e)
    end.
Proof. rewrite script_run. cbn. by destruct (outcome (main argv s)). Qed.

(** ** Only the flag matters *)

Lemma download_file_flag argv1 argv2 :
  in_argv "--dry-run" argv1 = in_argv "--dry-run" argv2 →
  download_file argv1 = download_file argv2.
Proof. intros Hflag. unfold download_file. by rewrite Hflag. Qed.

Lemma loop_body_flag argv1 argv2 :
  in_argv "--dry-run" argv1 = in_argv "--dry-run" argv2 →
  loop_body argv1 = loop_body argv2.
Proof.
  intros Hflag. unfold loop_body. by rewrite (download_file_flag _ _ Hflag).
Qed.

Lemma for_examples_flag argv1 argv2 items :
  in_argv "--dry-run" argv1 = in_argv "--dry-run" argv2 →
  for_examples argv1 items = for_examples argv2 items.
Proof.
  intros Hflag. induction items as [|e items IH]; cbn; [done|].
  by rewrite (loop_body_flag _ _ Hflag), IH.
Qed.

Lemma main_flag argv1 argv2 s :
  in_argv "--dry-run" argv1 = in_argv "--dry-run" argv2 →
  main argv1 s = main argv2 s.
Proof.
  intros Hflag. unfold main, summary_line.
  rewrite (download_file_flag _ _ Hflag), Hflag.
  repeat (apply bind_ext; intros ? ?).
  apply try_except_ext. intros t.
  repeat (apply bind_ext; intros ? ?).
  by rewrite (for_examples_flag _ _ _ Hflag).
Qed.

(** C1: with [--dry-run] among the arguments no directory is created and no
    file is written, whatever the network answers: the directories and the
    files of the world are the same after the script (and after [main]) as
    before, and the download helper returns at once, with no request made,
    no file opened and nothing printed. *)
Theorem dry_run_touches_no_file argv s :
  in_argv "--dry-run" argv = true →
  dirs (final (script argv s)) = dirs s ∧
  files (final (script argv s)) = files s ∧
  dirs (final (main argv s)) = dirs s ∧
  files (final (main argv s)) = files s ∧
  ∀ u dest s', download_file argv u dest s' = mkRun (Ok ()) s' [].
Proof.
  intros Hdry. rewrite script_run. cbn [final].
  rewrite (main_dry_final _ _ Hdry).
  repeat split; intros; by apply download_file_dry.
Qed.

(** C9: with [--dry-run] the listing request is still made, and it is the
    only request of the run; when it fails, [main] still prints the error
    on the error stream and returns 1, which becomes the exit status. *)
Theorem dry_run_still_requests_listing argv s :
  in_argv "--dry-run" argv = true →
  req_log (final (main argv s)) = (req_log s ++ [PStr examples_api_url])%list ∧
  ∀ msg, listing_fails s msg →
    main argv s =
      mkRun (Ok 1%Z) (log_request (PStr examples_api_url) s)
        [Out ("Target directory: " +:+ TARGET_DIR);
         Out "Dry run mode: files will not be downloaded";
         Out "Downloading AKS API specs from GitHub...";
         Out "Downloading managedClusters.json...";
         Out "Getting list of example files...";
         Err (listing_error_line msg)] ∧
    exit_status (outcome (script argv s)) = 1%Z.
Proof.
  intros Hdry. split; [by rewrite (main_dry_final _ _ Hdry)|].
  intros msg Hfail.
  pose proof (main_listing_fails _ _ _ _ _ (before_listing_dry argv s Hdry) Hfail)
    as Hmain.
  split; [exact Hmain|]. rewrite script_exit_status. by rewrite Hmain.
Qed.

(** C8: two argument lists that agree on whether ["--dry-run"] is a member
    give the same run of [main] in every world (same outcome, same final
    world, same lines printed), and the same run of the script: same exit
    status, same final world and same lines, but for the first line, on
    which the [__main__] block echoes the arguments. *)
Theorem only_the_dry_run_flag_matters argv1 argv2 s :
  in_argv "--dry-run" argv1 = in_argv "--dry-run" argv2 →
  main argv1 s = main argv2 s ∧
  outcome (script argv1 s) = outcome (script argv2 s) ∧
  final (script argv1 s) = final (script argv2 s) ∧
  List.filter is_err (printed (script argv1 s))
    = List.filter is_err (printed (script argv2 s)) ∧
  tail (printed (script argv1 s)) = tail (printed (script argv2 s)).
Proof.
  intros Hflag. rewrite !script_run, (main_flag _ _ s Hflag). done.
Qed.


(** ** The download helper, case by case *)

Lemma request_cases s u :
  (∃ msg, download_fails s u msg) ∨ (∃ r, request_ok s u r).
Proof.
  destruct (requests_get_oracle s u) as [cls msg|r] eqn:Hget.
  - left. exists msg. by eapply network_error.
  - destruct (decide (400 ≤ status_code r < 600)%Z) as [Hr|Hr].
    + left. eexists. by eapply http_error_status.
    + right. by exists r.
Qed.

Lemma download_file_log argv u dest s :
  in_argv "--dry-run" argv = false →
  req_log (final (download_file argv u dest s)) = (req_log s ++ [u])%list.
Proof.
  intros Hdry.
  destruct (request_cases s u) as [[msg Hfail]|[r Hok]].
  - by rewrite (download_file_fails _ _ _ _ _ Hdry Hfail).
  - destruct (os_error (log_request u s) (OpOpenWrite dest)) as [msg|] eqn:Hos.
    + by rewrite (download_file_refused _ _ _ _ _ _ Hdry Hok Hos).
    + by rewrite (download_file_written _ _ _ _ _ Hdry Hok Hos).
Qed.

(** C6: the download helper.  Under [--dry-run] it does nothing at all.
    Otherwise it makes exactly one GET request, for the URL it was given; a
    network error or an HTTP error status (400 to 599) is a failure, which
    prints an error and exits with status 1 leaving every file as it was;
    and when the request succeeds and the file can be opened, the file at
    the destination holds exactly the body of the response, whatever it
    held before, and no other file or directory changes. *)
Theorem download_file_contract argv u dest s :
  (in_argv "--dry-run" argv = true →
     download_file argv u dest s = mkRun (Ok ()) s []) ∧
  (in_argv "--dry-run" argv = false →
     req_log (final (download_file argv u dest s)) = (req_log s ++ [u])%list ∧
     (∀ r, requests_get_oracle s u = GetResponse r →
           (400 ≤ status_code r < 600)%Z →
           download_file argv u dest s =
             mkRun (Raise (SystemExit 1)) (log_request u s)
                   [Err (download_error_line u (http_error_msg r))]) ∧
     (∀ msg, download_fails s u msg →
           outcome (download_file argv u dest s) = Raise (SystemExit 1) ∧
           printed (download_file argv u dest s) = [Err (download_error_line u msg)] ∧
           files (final (download_file argv u dest s)) = files s ∧
           dirs (final (download_file argv u dest s)) = dirs s) ∧
     (∀ r, request_ok s u r →
           os_error (log_request u s) (OpOpenWrite dest) = None →
           outcome (download_file argv u dest s) = Ok () ∧
           printed (download_file argv u dest s) = [] ∧
           files (final (download_file argv u dest s)) = <[dest := content r]> (files s) ∧
           files (final (download_file argv u dest s)) !! dest = Some (content r) ∧
           (∀ p, p ≠ dest →
                 files (final (download_file argv u dest s)) !! p = files s !! p) ∧
           dirs (final (download_file argv u dest s)) = dirs s)).
Proof.
  split; [apply download_file_dry|]. intros Hdry.
  split; [by apply download_file_log|]. split; [|split].
  - intros r Hget Hr. apply download_file_fails; [done|].
    by eapply http_error_status.
  - intros msg Hfail. by rewrite (download_file_fails _ _ _ _ _ Hdry Hfail).
  - intros r Hok Hos. rewrite (download_file_written _ _ _ _ _ Hdry Hok Hos).
    cbn. unfold put_file, log_request. cbn.
    repeat split; [by rewrite lookup_insert_eq|].
    intros p Hp. by rewrite lookup_insert_ne.
Qed.

(** ** The loop over the listing *)


Lemma examples_loop_list argv items s :
  examples_loop argv (PList items) s =
    let r := for_examples argv items 0 s in
    mkRun (match outcome r with Ok _ => Ok 0%Z | Raise e => Raise e end)
          (final r)
          (Out "Downloading example files..." ::
           printed r ++
           match outcome r with
           | Ok n => [Out (summary_line argv n)]
           | Raise _ => []
           end).
Proof.
  unfold examples_loop, bind, and_then. cbn.
  destruct (for_examples argv items 0 s) as [[n|e] s1 out1]; cbn; [done|].
  by rewrite app_nil_r.
Qed.

Lemma for_examples_dry_run argv items n s :
  in_argv "--dry-run" argv = true →
  Forall (λ e, well_formed_entry e = true) items →
  for_examples argv items n s =
    mkRun (Ok (n + length (file_entries items))%nat) s
          (example_lines (file_entries items)).
Proof.
  intros Hdry Hwf. revert n.
  induction Hwf as [|e items Hwf _ IH]; intros n.
  { cbn. unfold ret. f_equal. f_equal. lia. }
  unfold file_entries. cbn [List.filter for_examples].
  destruct (is_file_entry e) eqn:Hfile.
  - pose proof (well_formed_file_entry e Hwf Hfile) as Hentry.
    unfold bind at 1. rewrite (loop_body_file _ _ _ _ _ _ Hentry).
    unfold bind, and_then. cbn. rewrite (download_file_dry _ _ _ _ Hdry). cbn.
    rewrite IH. cbn. unfold file_entries. do 2 f_equal. lia.
  - destruct (well_formed_other_entry e Hwf Hfile) as (t & Ht & Hne).
    rewrite (bind_ok _ _ _ _ _ _ (loop_body_other argv e t n s Ht Hne)).
    by rewrite IH.
Qed.

Lemma calm_tail u urls : calm (u :: urls) → calm urls.
Proof.
  intros [Hos Hnet]. split; [done|]. intros s v Hv. apply Hnet. by right.
Qed.

Lemma for_examples_calm argv items n s :
  in_argv "--dry-run" argv = false →
  Forall (λ e, well_formed_entry e = true) items →
  calm (entry_url <$> file_entries items) →
  for_examples argv items n s =
    mkRun (Ok (n + length (file_entries items))%nat)
          (fetched_all (file_entries items) s)
          (example_lines (file_entries items)).
Proof.
  intros Hdry Hwf. revert n s.
  induction Hwf as [|e items Hwf _ IH]; intros n s Hcalm.
  { cbn. unfold ret. f_equal. f_equal. lia. }
  unfold file_entries in *. cbn [List.filter for_examples] in *.
  destruct (is_file_entry e) eqn:Hfile.
  - pose proof (well_formed_file_entry e Hwf Hfile) as Hentry.
    cbn [fmap list_fmap] in Hcalm.
    destruct Hcalm as [Hos Hnet].
    destruct (Hnet s (entry_url e)) as [r Hok]; [by left|].
    unfold bind at 1. rewrite (loop_body_file _ _ _ _ _ _ Hentry).
    unfold bind, and_then. cbn.
    rewrite (download_file_written _ _ _ _ _ Hdry Hok (Hos _ _)). cbn.
    rewrite IH; [|by apply (calm_tail (entry_url e))]. cbn.
    unfold fetched, example_dest, body_of. destruct Hok as [-> _].
    do 2 f_equal. lia.
  - destruct (well_formed_other_entry e Hwf Hfile) as (t & Ht & Hne).
    rewrite (bind_ok _ _ _ _ _ _ (loop_body_other argv e t n s Ht Hne)).
    by rewrite IH.
Qed.

Lemma for_examples_succeeds argv items n s :
  Forall (λ e, well_formed_entry e = true) items →
  in_argv "--dry-run" argv = true ∨ calm (entry_url <$> file_entries items) →
  ∃ s', for_examples argv items n s =
    mkRun (Ok (n + length (file_entries items))%nat) s'
          (example_lines (file_entries items)).
Proof.
  intros Hwf Hcase. destruct (in_argv "--dry-run" argv) eqn:Hdry.
  - eexists. by apply for_examples_dry_run.
  - destruct Hcase as [|Hcalm]; [done|]. eexists. by apply for_examples_calm.
Qed.

(** The run of [main] when nothing goes wrong. *)
Lemma main_succeeds argv s s1 out1 items :
  before_listing argv s = mkRun (Ok ()) s1 out1 →
  listing_ok s1 (PList items) →
  Forall (λ e, well_formed_entry e = true) items →
  in_argv "--dry-run" argv = true ∨ calm (entry_url <$> file_entries items) →
  outcome (main argv s) = Ok 0%Z ∧
  printed (main argv s) =
    (out1 ++ [Out "Downloading example files..."]
          ++ example_lines (file_entries items)
          ++ [Out (summary_line argv (length (file_entries items)))])%list.
Proof.
  intros Hbefore Hok Hwf Hcase.
  rewrite (main_listing_ok _ _ _ _ _ Hbefore Hok). cbv zeta.
  rewrite examples_loop_list. cbv zeta.
  destruct (for_examples_succeeds argv items 0
              (log_request (PStr examples_api_url) s1) Hwf Hcase) as [s2 ->].
  done.
Qed.

(** A turn of the loop that ends well counts the entry if and only if it is
    a file entry. *)
Lemma loop_body_count argv e n s n' :
  outcome (loop_body argv e n s) = Ok n' →
  n' = (n + if is_file_entry e then 1 else 0)%nat.
Proof.
  unfold loop_body, bind, and_then, is_file_entry.
  destruct e as [| | | | |d]; cbn; try discriminate.
  destruct (dict_get "type" d) as [t|]; cbn; [|discriminate].
  destruct (py_eq_str t "file"); cbn; [|intros [= <-]; lia].
  destruct (dict_get "name" d) as [filename|]; cbn; [|discriminate].
  destruct (dict_get "download_url" d) as [u|]; cbn; [|discriminate].
  destruct filename as [| | |name| |]; cbn; try discriminate.
  destruct (download_file argv u _ s) as [[[]|x] s1 out1]; cbn;
    [by intros [= <-] | discriminate].
Qed.

Lemma for_examples_count argv items n s n' :
  outcome (for_examples argv items n s) = Ok n' →
  n' = (n + length (file_entries items))%nat.
Proof.
  revert n s. induction items as [|e items IH]; intros n s; cbn [for_examples].
  { cbn. intros [= <-]. lia. }
  destruct (loop_body argv e n s) as [[m|x] s1 out1] eqn:Hbody.
  - rewrite (bind_ok _ _ _ _ _ _ Hbody). cbn [outcome]. intros Hrest.
    apply IH in Hrest as ->.
    assert (Hm : outcome (loop_body argv e n s) = Ok m) by by rewrite Hbody.
    apply loop_body_count in Hm as ->.
    unfold file_entries. cbn [List.filter]. destruct (is_file_entry e); cbn; lia.
  - by rewrite (bind_raise _ _ _ _ _ _ Hbody).
Qed.

(** C4: the listing step is reached and answered by a JSON array with N
    entries of type ["file"] among others.  Whenever [main] returns, it
    returns 0 and the last line it printed is the summary, which reports
    N + 1 files and names the target directory; and [main] does return
    when the entries are well formed and the downloads succeed or the run
    is a dry run. *)
Theorem summary_reports_files_plus_one argv s s1 out1 items :
  before_listing argv s = mkRun (Ok ()) s1 out1 →
  listing_ok s1 (PList items) →
  let N := length (List.filter is_file_entry items) in
  let summary :=
    Out ("Download completed"
         +:+ (if in_argv "--dry-run" argv
              then " (dry run - no files were actually downloaded)"
              else "")
         +:+ ". " +:+ pretty (N + 1)%nat
         +:+ " files would be downloaded to " +:+ TARGET_DIR +:+ "/") in
  (∀ code, outcome (main argv s) = Ok code →
     code = 0%Z ∧ last (printed (main argv s)) = Some summary) ∧
  (Forall (λ e, well_formed_entry e = true) items →
   in_argv "--dry-run" argv = true ∨ calm (entry_url <$> file_entries items) →
   outcome (main argv s) = Ok 0%Z ∧
   last (printed (main argv s)) = Some summary).
Proof.
  intros Hbefore Hok N summary. split.
  - rewrite (main_listing_ok _ _ _ _ _ Hbefore Hok). cbv zeta.
    rewrite examples_loop_list. cbv zeta.
    destruct (for_examples argv items 0 _) as [[n|x] s2 out2] eqn:Hloop;
      cbn; [|discriminate].
    intros code [= <-]. split; [done|].
    assert (Hn : outcome (for_examples argv items 0
                            (log_request (PStr examples_api_url) s1)) = Ok n)
      by by rewrite Hloop.
    apply for_examples_count in Hn as ->.
    rewrite !app_comm_cons, app_assoc. by rewrite last_snoc.
  - intros Hwf Hcase.
    destruct (main_succeeds _ _ _ _ _ Hbefore Hok Hwf Hcase) as [Hout Hprinted].
    split; [done|]. rewrite Hprinted, !app_assoc. by rewrite last_snoc.
Qed.

(** ** Failures *)

Lemma examples_loop_returns_zero argv v s code :
  outcome (examples_loop argv v s) = Ok code → code = 0%Z.
Proof.
  unfold examples_loop, bind, and_then. cbn.
  destruct (py_iter v s) as [[items|e] s1 out1]; cbn; [|done].
  destruct (for_examples argv items 0 s1) as [[n|e] s2 out2]; cbn; congruence.
Qed.

(** A run with a failing download ends at that download. *)
Lemma main_download_failure argv s s' u out msg :
  in_argv "--dry-run" argv = false →
  download_failure argv s s' u out msg →
  main argv s =
    mkRun (Raise (SystemExit 1)) (log_request u s')
          (out ++ [Err (download_error_line u msg)]).
Proof.
  intros Hdry Hrun.
  destruct Hrun as [s0 out0 msg Hsetup Hfail
                   |s1 out1 pre e post n s2 out2 name u msg
                      Hbefore Hok Hpre Hentry Hfail].
  - apply main_before_raises. unfold before_listing.
    rewrite (bind_ok _ _ _ _ _ _ Hsetup).
    unfold bind, and_then.
    by rewrite (download_file_fails _ _ _ _ _ Hdry Hfail).
  - rewrite (main_listing_ok _ _ _ _ _ Hbefore Hok). cbv zeta.
    rewrite examples_loop_list. cbv zeta.
    assert (Hbody : loop_body argv e n s2 =
              mkRun (Raise (SystemExit 1)) (log_request u s2)
                    [Out (example_line (PStr name));
                     Err (download_error_line u msg)]).
    { rewrite (loop_body_file _ _ _ _ _ _ Hentry). unfold bind, and_then. cbn.
      by rewrite (download_file_fails _ _ _ _ _ Hdry Hfail). }
    rewrite for_examples_app, (bind_ok _ _ _ _ _ _ Hpre).
    cbn [for_examples]. rewrite (bind_raise _ _ _ _ _ _ Hbody). cbn.
    apply (f_equal (mkRun _ _)). by list_norm.
Qed.

(** C3: a run (not a dry run) in which a download fails, by a network error
    or an HTTP error status, ends there: [main] raises [SystemExit(1)], the
    error line is the last thing printed, and the exit status is 1.  The
    failing request is the last of the run, so no later entry of the
    listing is touched, and the files and directories are those of the
    world in which the request was made: what was downloaded before stays
    in place. *)
Theorem failed_download_ends_the_run argv s s' u out msg :
  in_argv "--dry-run" argv = false →
  download_failure argv s s' u out msg →
  main argv s =
    mkRun (Raise (SystemExit 1)) (log_request u s')
          (out ++ [Err (download_error_line u msg)]) ∧
  exit_status (outcome (script argv s)) = 1%Z ∧
  last (printed (script argv s)) = Some (Err (download_error_line u msg)) ∧
  req_log (final (script argv s)) = (req_log s' ++ [u])%list ∧
  files (final (script argv s)) = files s' ∧
  dirs (final (script argv s)) = dirs s'.
Proof.
  intros Hdry Hrun. pose proof (main_download_failure _ _ _ _ _ _ Hdry Hrun) as Hmain.
  split; [done|]. rewrite script_exit_status, script_run, Hmain. cbn.
  repeat split. rewrite !app_comm_cons. apply last_snoc.
Qed.

(** C7 (as amended): once the listing step is reached, a network
    error, an HTTP error status (400 to 599) or a body on which the decoder
    raises [JSONDecodeError] each end in the handler: [main] prints the
    error on the error stream and returns 1, the exit status.  A body on
    which the decoder gives up with [RecursionError] or [ValueError]
    escapes the handler: [main] and the script end in that exception, with
    nothing printed for it. *)
Theorem listing_failures_are_recovered argv s s1 out1 :
  before_listing argv s = mkRun (Ok ()) s1 out1 →
  (∀ msg,
     (∃ cls, requests_get_oracle s1 (PStr examples_api_url) = GetRaised cls msg) ∨
     (∃ r, requests_get_oracle s1 (PStr examples_api_url) = GetResponse r ∧
           (400 ≤ status_code r < 600)%Z ∧ msg = http_error_msg r) ∨
     (∃ r, requests_get_oracle s1 (PStr examples_api_url) = GetResponse r ∧
           ¬ (400 ≤ status_code r < 600)%Z ∧ json_loads r = NotJson msg) →
     main argv s =
       mkRun (Ok 1%Z) (log_request (PStr examples_api_url) s1)
             (out1 ++ [Err (listing_error_line msg)]) ∧
     exit_status (outcome (script argv s)) = 1%Z) ∧
  (∀ r e,
     requests_get_oracle s1 (PStr examples_api_url) = GetResponse r →
     ¬ (400 ≤ status_code r < 600)%Z →
     (json_loads r = TooDeep ∧ e = RecursionError) ∨
     (∃ msg, json_loads r = TooLong msg ∧ e = ValueError msg) →
     main argv s =
       mkRun (Raise e) (log_request (PStr examples_api_url) s1) out1 ∧
     outcome (script argv s) = Raise e).
Proof.
  intros Hbefore. split.
  - intros msg Hmode.
    assert (Hfail : listing_fails s1 msg).
    { destruct Hmode as [[cls Hget]|[(r & Hget & Hr & ->)|(r & Hget & Hr & Hjson)]].
      - by eapply listing_request_fails, network_error.
      - by eapply listing_request_fails, http_error_status.
      - by eapply listing_not_json. }
    pose proof (main_listing_fails _ _ _ _ _ Hbefore Hfail) as Hmain.
    split; [done|]. by rewrite script_exit_status, Hmain.
  - intros r e Hget Hr Hjson.
    assert (Hesc : listing_escapes s1 e).
    { destruct Hjson as [[Hjson ->]|(msg & Hjson & ->)].
      - by eapply body_too_deep.
      - by eapply body_too_long. }
    pose proof (main_listing_escapes _ _ _ _ _ Hbefore Hesc) as Hmain.
    split; [done|]. rewrite script_run, Hmain. cbn. by destruct Hesc.
Qed.

(** C2 (as amended): the exit status is 0 when the listing step
    succeeds on well-formed entries and every download succeeds; [main]
    returns 1 exactly when the listing step is reached and fails, and then
    the error is printed, the listing request is the last request of the
    run and the exit status is 1; but a failed download ends the run with
    exit status 1 as well. *)
Theorem exit_status_of_the_run argv s :
  (∀ s1 out1 items,
     before_listing argv s = mkRun (Ok ()) s1 out1 →
     listing_ok s1 (PList items) →
     Forall (λ e, well_formed_entry e = true) items →
     in_argv "--dry-run" argv = true ∨ calm (entry_url <$> file_entries items) →
     exit_status (outcome (script argv s)) = 0%Z) ∧
  ((∃ s' out, main argv s = mkRun (Ok 1%Z) s' out) ↔
   (∃ s1 out1 msg,
      before_listing argv s = mkRun (Ok ()) s1 out1 ∧ listing_fails s1 msg)) ∧
  (∀ s1 out1 msg,
     before_listing argv s = mkRun (Ok ()) s1 out1 →
     listing_fails s1 msg →
     main argv s =
       mkRun (Ok 1%Z) (log_request (PStr examples_api_url) s1)
             (out1 ++ [Err (listing_error_line msg)]) ∧
     exit_status (outcome (script argv s)) = 1%Z) ∧
  (∀ s' u out msg,
     in_argv "--dry-run" argv = false →
     download_failure argv s s' u out msg →
     exit_status (outcome (script argv s)) = 1%Z).
Proof.
  split; [|split; [|split]].
  - intros s1 out1 items Hbefore Hok Hwf Hcase.
    destruct (main_succeeds _ _ _ _ _ Hbefore Hok Hwf Hcase) as [Hout _].
    by rewrite script_exit_status, Hout.
  - split.
    + intros (s' & out & Hmain).
      destruct (before_listing argv s) as [[[]|e] s1 out1] eqn:Hbefore.
      * destruct (listing_cases s1) as [[msg Hfail]|[[v Hok]|[e Hesc]]];
          [by eauto| |].
        -- rewrite (main_listing_ok _ _ _ _ _ Hbefore Hok) in Hmain.
           cbv zeta in Hmain. injection Hmain as Hout _ _.
           by apply examples_loop_returns_zero in Hout.
        -- by rewrite (main_listing_escapes _ _ _ _ _ Hbefore Hesc) in Hmain.
      * by rewrite (main_before_raises _ _ _ _ _ Hbefore) in Hmain.
    + intros (s1 & out1 & msg & Hbefore & Hfail).
      rewrite (main_listing_fails _ _ _ _ _ Hbefore Hfail). eauto.
  - intros s1 out1 msg Hbefore Hfail.
    pose proof (main_listing_fails _ _ _ _ _ Hbefore Hfail) as Hmain.
    split; [done|]. by rewrite script_exit_status, Hmain.
  - intros s' u out msg Hdry Hrun.
    by rewrite script_exit_status, (main_download_failure _ _ _ _ _ _ Hdry Hrun).
Qed.

(** A listing with an entry that lacks a key never gets through the loop. *)
Lemma for_examples_lacking argv items e key n s :
  e ∈ items → lacks_key e key →
  ∃ x, outcome (for_examples argv items n s) = Raise x ∧
       is_RequestException x = false.
Proof.
  intros Hin Hlack. revert n s.
  induction items as [|e' items IH]; intros n s; [by apply elem_of_nil in Hin|].
  cbn [for_examples].
  pose proof (guarded_loop_body argv e' n s) as Hg.
  destruct (loop_body argv e' n s) as [[n'|x] s1 out1] eqn:Hbody; cbn in Hg.
  - rewrite (bind_ok _ _ _ _ _ _ Hbody). cbn [outcome].
    apply elem_of_cons in Hin as [->|Hin]; [|by apply IH].
    by rewrite (loop_body_lacks _ _ _ _ _ Hlack) in Hbody.
  - rewrite (bind_raise _ _ _ _ _ _ Hbody). by exists x.
Qed.

(** C10: the listing is a JSON array with an entry that lacks [type], or a
    file entry that lacks [name] or [download_url].  Then [main] never
    returns: it ends in an exception that is no [RequestException], so the
    handler of the listing step is not entered.  When the entries before
    the faulty one went well, the exception is the [KeyError] of the
    missing key, nothing is printed after the lines of those entries, and
    the script ends with that exception rather than with [sys.exit]. *)
Theorem missing_key_is_not_recovered argv s s1 out1 items :
  before_listing argv s = mkRun (Ok ()) s1 out1 →
  listing_ok s1 (PList items) →
  (∀ e key, e ∈ items → lacks_key e key →
     ∃ x, outcome (main argv s) = Raise x ∧ is_RequestException x = false) ∧
  (∀ pre e post key n s2 out2,
     items = (pre ++ e :: post)%list →
     lacks_key e key →
     for_examples argv pre 0 (log_request (PStr examples_api_url) s1)
       = mkRun (Ok n) s2 out2 →
     main argv s =
       mkRun (Raise (KeyError key)) s2
             (out1 ++ [Out "Downloading example files..."] ++ out2) ∧
     outcome (script argv s) = Raise (KeyError key)).
Proof.
  intros Hbefore Hok.
  pose proof (main_listing_ok _ _ _ _ _ Hbefore Hok) as Hmain.
  cbv zeta in Hmain. rewrite examples_loop_list in Hmain. cbv zeta in Hmain.
  split.
  - intros e key Hin Hlack.
    destruct (for_examples_lacking argv items e key 0
                (log_request (PStr examples_api_url) s1) Hin Hlack)
      as (x & Hout & Hx).
    exists x. rewrite Hmain. cbn [outcome]. by rewrite Hout.
  - intros pre e post key n s2 out2 -> Hlack Hpre.
    assert (Hloop : for_examples argv (pre ++ e :: post) 0
                      (log_request (PStr examples_api_url) s1)
                    = mkRun (Raise (KeyError key)) s2 out2).
    { rewrite for_examples_app, (bind_ok _ _ _ _ _ _ Hpre).
      cbn [for_examples]. unfold bind, and_then.
      rewrite (loop_body_lacks _ _ _ _ _ Hlack). cbn. by rewrite app_nil_r. }
    rewrite Hloop in Hmain. cbn in Hmain. rewrite app_nil_r in Hmain.
    split; [by rewrite Hmain|]. by rewrite script_run, Hmain.
Qed.


(** * Further properties of the script *)

(** ** Where a run can break off *)

(** The run of [main] when a turn of the loop raises. *)
Lemma main_loop_raises argv s s1 out1 pre e post n s2 out2 x s3 out3 :
  before_listing argv s = mkRun (Ok ()) s1 out1 →
  listing_ok s1 (PList (pre ++ e :: post)) →
  for_examples argv pre 0 (log_request (PStr examples_api_url) s1)
    = mkRun (Ok n) s2 out2 →
  loop_body argv e n s2 = mkRun (Raise x) s3 out3 →
  main argv s =
    mkRun (Raise x) s3
          (out1 ++ [Out "Downloading example files..."] ++ out2 ++ out3).
Proof.
  intros Hbefore Hok Hpre Hbody.
  pose proof (guarded_loop_body argv e n s2) as Hx. rewrite Hbody in Hx. cbn in Hx.
  assert (Hloop : for_examples argv (pre ++ e :: post) 0
                    (log_request (PStr examples_api_url) s1)
                  = mkRun (Raise x) s3 (out2 ++ out3)).
  { rewrite for_examples_app, (bind_ok _ _ _ _ _ _ Hpre).
    cbn [for_examples]. by rewrite (bind_raise _ _ _ _ _ _ Hbody). }
  rewrite (main_listing_ok _ _ _ _ _ Hbefore Hok). cbv zeta.
  rewrite examples_loop_list. cbv zeta. rewrite Hloop. cbn.
  apply (f_equal (mkRun _ _)). by list_norm.
Qed.

(** X1: in a real run the directories come first.  When the operating
    system refuses the target directory, [main] ends in that [OSError]
    with the world untouched and one line printed; when it refuses the
    [examples] directory, only the target directory was made.  In both
    cases no request was made and the exit status is 1. *)
Theorem makedirs_refusal_comes_before_any_request argv s msg :
  in_argv "--dry-run" argv = false →
  (os_error s (OpMakedirs TARGET_DIR) = Some msg →
     main argv s =
       mkRun (Raise (OSError msg)) s [Out ("Target directory: " +:+ TARGET_DIR)] ∧
     exit_status (outcome (script argv s)) = 1%Z) ∧
  (os_error s (OpMakedirs TARGET_DIR) = None →
   os_error (add_dir TARGET_DIR s) (OpMakedirs (TARGET_DIR // "examples")) = Some msg →
     main argv s =
       mkRun (Raise (OSError msg)) (add_dir TARGET_DIR s)
             [Out ("Target directory: " +:+ TARGET_DIR)] ∧
     req_log (final (main argv s)) = req_log s ∧
     exit_status (outcome (script argv s)) = 1%Z).
Proof.
  intros Hdry. split.
  - intros Hos.
    assert (Hmain : main argv s =
              mkRun (Raise (OSError msg)) s [Out ("Target directory: " +:+ TARGET_DIR)]).
    { apply main_before_raises. unfold before_listing, setup. rewrite Hdry.
      unfold bind, and_then, os_makedirs. cbn. by rewrite Hos. }
    split; [done|]. by rewrite script_exit_status, Hmain.
  - intros Hos1 Hos2.
    assert (Hmain : main argv s =
              mkRun (Raise (OSError msg)) (add_dir TARGET_DIR s)
                    [Out ("Target directory: " +:+ TARGET_DIR)]).
    { apply main_before_raises. unfold before_listing, setup. rewrite Hdry.
      unfold bind, and_then, os_makedirs. cbn. rewrite Hos1. cbn. by rewrite Hos2. }
    split; [done|]. split; [by rewrite Hmain|].
    by rewrite script_exit_status, Hmain.
Qed.

(** X2: a file that cannot be opened is nobody's business.  When the
    request for an example succeeds and the operating system refuses the
    destination, the [OSError] passes the handler of the helper and the
    handler of [main]: the run ends in it, nothing is written on the error
    stream for it, no file changes, and the entries after it are left. *)
Theorem open_refusal_is_not_caught
    argv s s1 out1 pre e post n s2 out2 name u r msg :
  in_argv "--dry-run" argv = false →
  before_listing argv s = mkRun (Ok ()) s1 out1 →
  listing_ok s1 (PList (pre ++ e :: post)) →
  for_examples argv pre 0 (log_request (PStr examples_api_url) s1)
    = mkRun (Ok n) s2 out2 →
  file_entry e name u →
  request_ok s2 u r →
  os_error (log_request u s2) (OpOpenWrite (TARGET_DIR // "examples" // name))
    = Some msg →
  main argv s =
    mkRun (Raise (OSError msg)) (log_request u s2)
          (out1 ++ [Out "Downloading example files..."] ++ out2
                ++ [Out (example_line (PStr name))]) ∧
  files (final (main argv s)) = files s2 ∧
  outcome (script argv s) = Raise (OSError msg).
Proof.
  intros Hdry Hbefore Hok Hpre Hentry Hreq Hos.
  assert (Hbody : loop_body argv e n s2 =
            mkRun (Raise (OSError msg)) (log_request u s2)
                  [Out (example_line (PStr name))]).
  { rewrite (loop_body_file _ _ _ _ _ _ Hentry). unfold bind, and_then. cbn.
    by rewrite (download_file_refused _ _ _ _ _ _ Hdry Hreq Hos). }
  pose proof (main_loop_raises _ _ _ _ _ _ _ _ _ _ _ _ _ Hbefore Hok Hpre Hbody)
    as Hmain.
  split; [done|]. split; [by rewrite Hmain|]. by rewrite script_run, Hmain.
Qed.

(** X3: a listing that decodes, but not to an array.  [None], a boolean or
    a number cannot be iterated: [TypeError], uncaught.  An object is
    iterated by its keys and a string by its characters, and the first of
    them cannot be subscripted with ["type"]: [TypeError] again.  An empty
    object and an empty string go through as an empty listing: [main]
    returns 0 and reports one file. *)
Theorem listing_that_is_no_array argv s s1 out1 v :
  before_listing argv s = mkRun (Ok ()) s1 out1 →
  listing_ok s1 v →
  (v = PNone ∨ (∃ b, v = PBool b) ∨ (∃ lit, v = PNum lit) ∨
   (∃ k x d, v = PDict ((k, x) :: d)) ∨ (∃ a t, v = PStr (String a t)) →
     main argv s =
       mkRun (Raise TypeError) (log_request (PStr examples_api_url) s1)
             (out1 ++ [Out "Downloading example files..."]) ∧
     outcome (script argv s) = Raise TypeError) ∧
  (v = PDict [] ∨ v = PStr "" →
     main argv s =
       mkRun (Ok 0%Z) (log_request (PStr examples_api_url) s1)
             (out1 ++ [Out "Downloading example files...";
                       Out (summary_line argv 0)]) ∧
     exit_status (outcome (script argv s)) = 0%Z).
Proof.
  intros Hbefore Hok.
  pose proof (main_listing_ok _ _ _ _ _ Hbefore Hok) as Hmain. cbv zeta in Hmain.
  split.
  - intros Hv.
    assert (Hloop : examples_loop argv v (log_request (PStr examples_api_url) s1)
              = mkRun (Raise TypeError) (log_request (PStr examples_api_url) s1)
                      [Out "Downloading example files..."]).
    { unfold examples_loop, bind, and_then.
      destruct Hv as [->|[[b ->]|[[lit ->]|[(k & x & d & ->)|(a & t & ->)]]]];
        done. }
    rewrite Hloop in Hmain. cbn in Hmain.
    split; [done|]. by rewrite script_run, Hmain.
  - intros Hv.
    assert (Hloop : examples_loop argv v (log_request (PStr examples_api_url) s1)
              = mkRun (Ok 0%Z) (log_request (PStr examples_api_url) s1)
                      [Out "Downloading example files...";
                       Out (summary_line argv 0)]).
    { unfold examples_loop, bind, and_then. by destruct Hv as [->| ->]. }
    rewrite Hloop in Hmain. cbn in Hmain.
    split; [done|]. by rewrite script_exit_status, Hmain.
Qed.

(** X4: a file entry whose [name] is no string (a number, [None], ...).
    The entry is announced, with the name as Python prints it, and then
    joining the path raises [TypeError], in a dry run as well: the helper
    is not called, no request is made for the entry, and the run ends in
    the exception. *)
Theorem name_that_is_no_string
    argv s s1 out1 pre d post n s2 out2 filename u :
  before_listing argv s = mkRun (Ok ()) s1 out1 →
  listing_ok s1 (PList (pre ++ PDict d :: post)) →
  for_examples argv pre 0 (log_request (PStr examples_api_url) s1)
    = mkRun (Ok n) s2 out2 →
  dict_get "type" d = Some (PStr "file") →
  dict_get "name" d = Some filename →
  dict_get "download_url" d = Some u →
  (∀ name, filename ≠ PStr name) →
  main argv s =
    mkRun (Raise TypeError) s2
          (out1 ++ [Out "Downloading example files..."] ++ out2
                ++ [Out ("  - " +:+ py_repr filename)]) ∧
  outcome (script argv s) = Raise TypeError.
Proof.
  intros Hbefore Hok Hpre Hty Hname Hurl Hfilename.
  assert (Hbody : loop_body argv (PDict d) n s2 =
            mkRun (Raise TypeError) s2 [Out ("  - " +:+ py_repr filename)]).
  { unfold loop_body, bind, and_then, getitem. rewrite Hty. cbn.
    rewrite Hname. cbn. rewrite Hurl. cbn.
    destruct filename as [| | |name| |]; try done. by destruct (Hfilename name). }
  pose proof (main_loop_raises _ _ _ _ _ _ _ _ _ _ _ _ _ Hbefore Hok Hpre Hbody)
    as Hmain.
  split; [done|]. by rewrite script_run, Hmain.
Qed.


(** ** What leaves [main] *)

Lemma tamely_ret {A} (a : A) : tamely (ret a).
Proof. by intros s. Qed.

Lemma tamely_print line : tamely (print line).
Proof. by intros s. Qed.

Lemma tamely_bind {A B} (m : M A) (k : A → M B) :
  tamely m → (∀ a, tamely (k a)) → tamely (bind m k).
Proof.
  intros Hm Hk s. specialize (Hm s). unfold bind, and_then.
  destruct (m s) as [[a|e] s1 out1]; cbn in *; [apply Hk | done].
Qed.

Lemma tamely_getitem v key : tamely (getitem v key).
Proof.
  intros s. destruct v; cbn; try done. by destruct (dict_get key items).
Qed.

Lemma tamely_path_div path v : tamely (path_div path v).
Proof. intros s. by destruct v. Qed.

Lemma tamely_py_iter v : tamely (py_iter v).
Proof. intros s. by destruct v. Qed.

Lemma tamely_os_makedirs path : tamely (os_makedirs path).
Proof. intros s. unfold os_makedirs. by destruct (os_error s _). Qed.

Lemma tamely_download_file argv u dest : tamely (download_file argv u dest).
Proof.
  intros s. destruct (in_argv "--dry-run" argv) eqn:Hdry.
  { by rewrite download_file_dry. }
  destruct (request_cases s u) as [[msg Hfail]|[r Hok]].
  - by rewrite (download_file_fails _ _ _ _ _ Hdry Hfail).
  - destruct (os_error (log_request u s) (OpOpenWrite dest)) as [msg|] eqn:Hos.
    + by rewrite (download_file_refused _ _ _ _ _ _ Hdry Hok Hos).
    + by rewrite (download_file_written _ _ _ _ _ Hdry Hok Hos).
Qed.

Create HintDb tame.
#[local] Hint Resolve tamely_ret tamely_print tamely_bind tamely_getitem
  tamely_path_div tamely_py_iter tamely_os_makedirs tamely_download_file : tame.

Lemma tamely_loop_body argv e n : tamely (loop_body argv e n).
Proof.
  unfold loop_body. apply tamely_bind; [auto with tame|]. intros ty.
  destruct (py_eq_str ty "file"); auto 10 with tame.
Qed.

Lemma tamely_for_examples argv items n : tamely (for_examples argv items n).
Proof.
  revert n. induction items as [|e items IH]; intros n; cbn;
    auto using tamely_loop_body with tame.
Qed.

Lemma tamely_examples_loop argv v : tamely (examples_loop argv v).
Proof. unfold examples_loop. auto 10 using tamely_for_examples with tame. Qed.

Lemma tamely_before_listing argv : tamely (before_listing argv).
Proof.
  unfold before_listing, setup.
  destruct (in_argv "--dry-run" argv); cbn [negb]; auto 12 with tame.
Qed.

(** How [main] can end: with 0, with 1, or in a tame exception. *)
Lemma main_ends argv s :
  match outcome (main argv s) with
  | Ok code => code = 0%Z ∨ code = 1%Z
  | Raise e => tame e
  end.
Proof.
  pose proof (tamely_before_listing argv s) as Hb.
  destruct (before_listing argv s) as [[[]|e] s1 out1] eqn:Hbefore; cbn in Hb.
  - destruct (listing_cases s1) as [[msg Hfail]|[[v Hok]|[e Hesc]]].
    + rewrite (main_listing_fails _ _ _ _ _ Hbefore Hfail). cbn. by right.
    + rewrite (main_listing_ok _ _ _ _ _ Hbefore Hok). cbn.
      pose proof (tamely_examples_loop argv v
                    (log_request (PStr examples_api_url) s1)) as Hl.
      destruct (outcome (examples_loop argv v _)) as [code|e] eqn:Hout; [|done].
      left. by eapply examples_loop_returns_zero.
    + rewrite (main_listing_escapes _ _ _ _ _ Hbefore Hesc). cbn.
      by destruct Hesc.
  - by rewrite (main_before_raises _ _ _ _ _ Hbefore).
Qed.


(** ** The error stream *)

Lemma loud_exit_ret {A} (a : A) : loud_exit (ret a).
Proof. by intros s. Qed.

Lemma loud_exit_print line : loud_exit (print line).
Proof. by intros s. Qed.

Lemma loud_exit_bind {A B} (m : M A) (k : A → M B) :
  loud_exit m → (∀ a, loud_exit (k a)) → loud_exit (bind m k).
Proof.
  intros Hm Hk s. specialize (Hm s). unfold bind, and_then, errors in *.
  destruct (m s) as [[a|e] s1 out1]; cbn in *; [|done].
  specialize (Hk a s1). unfold errors in Hk.
  rewrite List.filter_app, Hm. cbn. exact Hk.
Qed.

Lemma loud_exit_getitem v key : loud_exit (getitem v key).
Proof.
  intros s. destruct v; cbn; try done. by destruct (dict_get key items).
Qed.

Lemma loud_exit_path_div path v : loud_exit (path_div path v).
Proof. intros s. by destruct v. Qed.

Lemma loud_exit_py_iter v : loud_exit (py_iter v).
Proof. intros s. by destruct v. Qed.

Lemma loud_exit_os_makedirs path : loud_exit (os_makedirs path).
Proof. intros s. unfold os_makedirs. by destruct (os_error s _). Qed.

Lemma loud_exit_download_file argv u dest : loud_exit (download_file argv u dest).
Proof.
  intros s. destruct (in_argv "--dry-run" argv) eqn:Hdry.
  { by rewrite download_file_dry. }
  destruct (request_cases s u) as [[msg Hfail]|[r Hok]].
  - rewrite (download_file_fails _ _ _ _ _ Hdry Hfail). cbn. by eexists.
  - destruct (os_error (log_request u s) (OpOpenWrite dest)) as [msg|] eqn:Hos.
    + by rewrite (download_file_refused _ _ _ _ _ _ Hdry Hok Hos).
    + by rewrite (download_file_written _ _ _ _ _ Hdry Hok Hos).
Qed.

Create HintDb loud.
#[local] Hint Resolve loud_exit_ret loud_exit_print loud_exit_bind
  loud_exit_getitem loud_exit_path_div loud_exit_py_iter loud_exit_os_makedirs
  loud_exit_download_file : loud.

Lemma loud_exit_loop_body argv e n : loud_exit (loop_body argv e n).
Proof.
  unfold loop_body. apply loud_exit_bind; [auto with loud|]. intros ty.
  destruct (py_eq_str ty "file"); auto 10 with loud.
Qed.

Lemma loud_exit_for_examples argv items n : loud_exit (for_examples argv items n).
Proof.
  revert n. induction items as [|e items IH]; intros n; cbn;
    auto using loud_exit_loop_body with loud.
Qed.

Lemma loud_exit_examples_loop argv v : loud_exit (examples_loop argv v).
Proof. unfold examples_loop. auto 10 using loud_exit_for_examples with loud. Qed.

Lemma loud_exit_before_listing argv : loud_exit (before_listing argv).
Proof.
  unfold before_listing, setup.
  destruct (in_argv "--dry-run" argv); cbn [negb]; auto 12 with loud.
Qed.

(** The error stream of [main], by the way [main] ends. *)
Lemma main_errors argv s :
  match outcome (main argv s) with
  | Ok code => if decide (code = 1%Z) then ∃ line, errors (main argv s) = [Err line]
               else errors (main argv s) = []
  | Raise (SystemExit _) => ∃ line, errors (main argv s) = [Err line]
  | Raise _ => errors (main argv s) = []
  end.
Proof.
  pose proof (loud_exit_before_listing argv s) as Hb.
  destruct (before_listing argv s) as [[[]|e] s1 out1] eqn:Hbefore;
    unfold errors in Hb; cbn in Hb.
  - destruct (listing_cases s1) as [[msg Hfail]|[[v Hok]|[e Hesc]]].
    + rewrite (main_listing_fails _ _ _ _ _ Hbefore Hfail). unfold errors. cbn.
      rewrite List.filter_app, Hb. cbn. by eexists.
    + rewrite (main_listing_ok _ _ _ _ _ Hbefore Hok). cbv zeta.
      pose proof (loud_exit_examples_loop argv v
                    (log_request (PStr examples_api_url) s1)) as Hl.
      unfold errors in *. cbn.
      destruct (examples_loop argv v _) as [[code|e] s2 out2] eqn:Hloop;
        cbn in *; rewrite List.filter_app, Hb; cbn.
      * assert (code = 0%Z) as ->.
        { eapply examples_loop_returns_zero. by rewrite Hloop. }
        done.
      * done.
    + rewrite (main_listing_escapes _ _ _ _ _ Hbefore Hesc). unfold errors. cbn.
      by destruct Hesc.
  - by rewrite (main_before_raises _ _ _ _ _ Hbefore).
Qed.

(** X6: the script writes on the error stream at most once in a run, and
    it does so exactly when it ends through [sys.exit(1)]: a run that ends
    with status 0, or in an exception nobody caught, has written nothing
    of its own there. *)
Theorem one_error_line_iff_exit_1 argv s :
  (List.length (errors (script argv s)) ≤ 1)%nat ∧
  (errors (script argv s) ≠ [] ↔ outcome (script argv s) = Raise (SystemExit 1)).
Proof.
  assert (Herr : errors (script argv s) = errors (main argv s)).
  { unfold errors. by rewrite script_run. }
  rewrite Herr, script_run. cbn [outcome].
  pose proof (main_errors argv s) as He. pose proof (main_ends argv s) as Ht.
  destruct (outcome (main argv s)) as [code|e].
  - destruct Ht as [-> | ->]; cbn in He.
    + rewrite He. split; [cbn; lia|]. split; [done|]. intros [=].
    + destruct He as [line ->]. split; [cbn; lia|]. done.
  - destruct e; cbn in *; try (rewrite He; split; [cbn; lia|]; by split).
    destruct He as [line ->]. subst code. split; [cbn; lia|]. done.
Qed.


(** ** The script only adds to the world *)

Lemma grown_refl s : grown s s.
Proof. unfold grown. set_solver. Qed.

Lemma grown_trans s1 s2 s3 : grown s1 s2 → grown s2 s3 → grown s1 s3.
Proof.
  intros (Hd1 & Hd1' & Hf1) (Hd2 & Hd2' & Hf2).
  split; [set_solver|]. split; [set_solver|].
  intros p Hp. by apply Hf2, Hf1.
Qed.

Lemma adding_stateless {A} (m : M A) : stateless m → adding m.
Proof. intros Hm s. rewrite Hm. apply grown_refl. Qed.

Lemma adding_bind {A B} (m : M A) (k : A → M B) :
  adding m → (∀ a, adding (k a)) → adding (bind m k).
Proof.
  intros Hm Hk s. specialize (Hm s). unfold bind, and_then.
  destruct (m s) as [[a|e] s1 out1]; cbn in *; [|done].
  eapply grown_trans; [exact Hm | apply Hk].
Qed.

Lemma adding_try_except {A} (body : M A) (h : string → M A) :
  adding body → (∀ e, adding (h e)) → adding (try_except body h).
Proof.
  intros Hb Hh s. specialize (Hb s). unfold try_except.
  destruct (body s) as [[a|e] s1 out1]; cbn in *; [done|].
  destruct e; cbn; try done.
  eapply grown_trans; [exact Hb | apply Hh].
Qed.

Lemma adding_requests_get u : adding (requests_get u).
Proof.
  intros s. unfold requests_get, grown, log_request.
  destruct (requests_get_oracle s u); cbn; set_solver.
Qed.

Lemma adding_os_makedirs path :
  path = TARGET_DIR ∨ path = TARGET_DIR // "examples" →
  adding (os_makedirs path).
Proof.
  intros Hpath s. unfold os_makedirs.
  destruct (os_error s _); cbn; [apply grown_refl|].
  unfold grown, add_dir. cbn. set_solver.
Qed.

Lemma adding_write_file path data : adding (write_file path data).
Proof.
  intros s. unfold write_file.
  destruct (os_error s _); cbn; [apply grown_refl|].
  unfold grown, put_file. cbn.
  split; [done|]. split; [set_solver|].
  intros p Hp. destruct (decide (path = p)) as [->|Hne].
  - rewrite lookup_insert_eq. by eexists.
  - by rewrite lookup_insert_ne.
Qed.

Lemma adding_download_file argv u dest : adding (download_file argv u dest).
Proof.
  unfold download_file.
  destruct (in_argv "--dry-run" argv);
    [apply adding_stateless; auto with frame|].
  apply adding_try_except.
  - apply adding_bind; [apply adding_requests_get|]. intros r.
    apply adding_bind; [apply adding_stateless; auto with frame|]. intros _.
    apply adding_write_file.
  - intros e. apply adding_stateless. unfold sys_exit. auto with frame.
Qed.

Lemma adding_loop_body argv e n : adding (loop_body argv e n).
Proof.
  unfold loop_body.
  apply adding_bind; [apply adding_stateless; auto with frame|]. intros ty.
  destruct (py_eq_str ty "file"); [|apply adding_stateless; auto with frame].
  apply adding_bind; [apply adding_stateless; auto with frame|]. intros filename.
  apply adding_bind; [apply adding_stateless; auto with frame|]. intros u.
  apply adding_bind; [apply adding_stateless; auto with frame|]. intros _.
  apply adding_bind; [apply adding_stateless; auto with frame|]. intros dest.
  apply adding_bind; [apply adding_download_file|]. intros _.
  apply adding_stateless. auto with frame.
Qed.

Lemma adding_for_examples argv items n : adding (for_examples argv items n).
Proof.
  revert n. induction items as [|e items IH]; intros n; cbn [for_examples].
  - apply adding_stateless. auto with frame.
  - apply adding_bind; [apply adding_loop_body | done].
Qed.

Lemma adding_main argv : adding (main argv).
Proof.
  unfold main.
  apply adding_bind; [apply adding_stateless; auto with frame|]. intros _.
  apply adding_bind;
    [apply adding_stateless; destruct (in_argv "--dry-run" argv); auto with frame|].
  intros _. apply adding_bind.
  { destruct (negb (in_argv "--dry-run" argv));
      [|apply adding_stateless; auto with frame].
    apply adding_bind; [apply adding_os_makedirs; by left|]. intros _.
    apply adding_os_makedirs; by right. }
  intros _. apply adding_bind; [apply adding_stateless; auto with frame|]. intros _.
  apply adding_bind; [apply adding_stateless; auto with frame|]. intros _.
  apply adding_bind; [apply adding_download_file|]. intros _.
  apply adding_bind; [apply adding_stateless; auto with frame|]. intros _.
  apply adding_try_except.
  - apply adding_bind; [apply adding_requests_get|]. intros r.
    apply adding_bind; [apply adding_stateless; auto with frame|]. intros _.
    apply adding_bind; [apply adding_stateless; auto with frame|]. intros v.
    apply adding_bind; [apply adding_stateless; auto with frame|]. intros _.
    apply adding_bind; [apply adding_stateless; auto with frame|]. intros items.
    apply adding_bind; [apply adding_for_examples|]. intros n.
    apply adding_stateless. auto with frame.
  - intros e. apply adding_stateless. auto with frame.
Qed.

(** X7: in every run, whatever the listing holds and however the run ends,
    the script takes nothing away: every directory and every file that was
    there before is there afterwards (a file may have been written over),
    and the only directories it makes are the target directory and its
    [examples]. *)
Theorem script_only_adds argv s :
  dirs s ⊆ dirs (final (script argv s)) ∧
  dirs (final (script argv s))
    ⊆ {[TARGET_DIR; TARGET_DIR // "examples"]} ∪ dirs s ∧
  (∀ p, is_Some (files s !! p) → is_Some (files (final (script argv s)) !! p)).
Proof. rewrite script_run. cbn [final]. apply adding_main. Qed.

(** ** A real run in which nothing goes wrong *)

Lemma before_listing_calm argv s :
  in_argv "--dry-run" argv = false →
  calm [PStr main_spec_url] →
  before_listing argv s =
    mkRun (Ok ()) (at_listing s)
      [Out ("Target directory: " +:+ TARGET_DIR);
       Out "Downloading AKS API specs from GitHub...";
       Out "Downloading managedClusters.json...";
       Out "Getting list of example files..."].
Proof.
  intros Hdry [Hos Hnet].
  destruct (Hnet (add_dir (TARGET_DIR // "examples") (add_dir TARGET_DIR s))
              (PStr main_spec_url)) as [r Hok]; [by left|].
  unfold before_listing, setup. rewrite Hdry.
  unfold bind, and_then, os_makedirs. cbn. repeat (rewrite Hos; cbn).
  rewrite (download_file_written _ _ _ _ _ Hdry Hok (Hos _ _)). cbn.
  unfold at_listing, fetched, body_of. by destruct Hok as [-> _].
Qed.

Lemma req_log_fetched_all es s :
  req_log (fetched_all es s) = (req_log s ++ (entry_url <$> es))%list.
Proof.
  revert s. induction es as [|e es IH]; intros s; cbn.
  - by rewrite app_nil_r.
  - unfold fetched_all in IH. rewrite IH. unfold fetched, put_file, log_request.
    cbn. by rewrite <- app_assoc.
Qed.

Lemma dirs_fetched_all es s : dirs (fetched_all es s) = dirs s.
Proof.
  revert s. induction es as [|e es IH]; intros s; cbn; [done|].
  unfold fetched_all in IH. by rewrite IH.
Qed.

Lemma files_fetched_all_keeps es s p :
  is_Some (files s !! p) → is_Some (files (fetched_all es s) !! p).
Proof.
  revert s. induction es as [|e es IH]; intros s Hp; cbn; [done|].
  apply IH. unfold fetched, put_file. cbn.
  destruct (decide (example_dest e = p)) as [->|Hne].
  - rewrite lookup_insert_eq. by eexists.
  - by rewrite lookup_insert_ne.
Qed.

Lemma files_fetched_all_has es s e :
  e ∈ es → is_Some (files (fetched_all es s) !! example_dest e).
Proof.
  revert s. induction es as [|e' es IH]; intros s Hin; [by apply elem_of_nil in Hin|].
  cbn. apply elem_of_cons in Hin as [->|Hin]; [|by apply IH].
  apply files_fetched_all_keeps. unfold fetched, put_file. cbn.
  rewrite lookup_insert_eq. by eexists.
Qed.

Lemma main_real_run argv s items :
  in_argv "--dry-run" argv = false →
  calm (PStr main_spec_url :: (entry_url <$> file_entries items)) →
  listing_ok (at_listing s) (PList items) →
  Forall (λ e, well_formed_entry e = true) items →
  main argv s =
    mkRun (Ok 0%Z) (after_run items s)
      ([Out ("Target directory: " +:+ TARGET_DIR);
        Out "Downloading AKS API specs from GitHub...";
        Out "Downloading managedClusters.json...";
        Out "Getting list of example files...";
        Out "Downloading example files..."]
       ++ example_lines (file_entries items)
       ++ [Out (summary_line argv (List.length (file_entries items)))]).
Proof.
  intros Hdry Hcalm Hok Hwf.
  assert (Hcalm1 : calm [PStr main_spec_url]).
  { destruct Hcalm as [Hos Hnet]. split; [done|]. intros t u Hu. apply Hnet.
    apply elem_of_cons in Hu as [->|Hu]; [by left | by apply elem_of_nil in Hu]. }
  pose proof (before_listing_calm argv s Hdry Hcalm1) as Hbefore.
  rewrite (main_listing_ok _ _ _ _ _ Hbefore Hok). cbv zeta.
  rewrite examples_loop_list. cbv zeta.
  rewrite (for_examples_calm _ _ _ _ Hdry Hwf (calm_tail _ _ Hcalm)). done.
Qed.

(** X8: a real run in which the operating system refuses nothing, every
    request is answered without an HTTP error and the listing is an array
    of well-formed entries.  [main] returns 0; it has asked for the main
    specification, then for the listing, then for the file entries in the
    order of the listing, and for nothing else; the two directories exist,
    and the main specification and every example are on disk. *)
Theorem real_run_fetches_everything_in_order argv s items :
  in_argv "--dry-run" argv = false →
  calm (PStr main_spec_url :: (entry_url <$> file_entries items)) →
  listing_ok (at_listing s) (PList items) →
  Forall (λ e, well_formed_entry e = true) items →
  outcome (main argv s) = Ok 0%Z ∧
  req_log (final (main argv s)) =
    (req_log s ++ [PStr main_spec_url; PStr examples_api_url]
           ++ (entry_url <$> file_entries items))%list ∧
  dirs (final (main argv s)) =
    {[TARGET_DIR // "examples"]} ∪ ({[TARGET_DIR]} ∪ dirs s) ∧
  is_Some (files (final (main argv s)) !! (TARGET_DIR // "managedClusters.json")) ∧
  (∀ e, e ∈ file_entries items →
        is_Some (files (final (main argv s))
                   !! (TARGET_DIR // "examples" // entry_name e))).
Proof.
  intros Hdry Hcalm Hok Hwf. rewrite (main_real_run _ _ _ Hdry Hcalm Hok Hwf).
  cbn [outcome final]. unfold after_run.
  split; [done|]. split; [|split; [|split]].
  - rewrite req_log_fetched_all. unfold at_listing, fetched, put_file, log_request,
      add_dir. cbn. by rewrite <- !app_assoc.
  - by rewrite dirs_fetched_all.
  - apply files_fetched_all_keeps. unfold at_listing, fetched, put_file, log_request.
    cbn. rewrite lookup_insert_eq. by eexists.
  - intros e He. by apply files_fetched_all_has.
Qed.

(** ** Which entries the loop downloads *)




(** ** Running the script again *)

Lemma insert_all_snoc kvs k v m :
  insert_all (kvs ++ [(k, v)]) m = <[k := v]> (insert_all kvs m).
Proof. unfold insert_all. by rewrite foldl_app. Qed.

(** What [insert_all] leaves under a key depends on the old map only where
    the bindings say nothing. *)
Lemma insert_all_lookup kvs :
  ∃ g : string → option (list byte),
    ∀ m k, insert_all kvs m !! k = match g k with Some v => Some v | None => m !! k end.
Proof.
  induction kvs as [|[k' v'] kvs [g Hg]] using rev_ind.
  - by exists (λ _, None).
  - exists (λ k, if decide (k' = k) then Some v' else g k). intros m k.
    rewrite insert_all_snoc. destruct (decide (k' = k)) as [->|Hne].
    + by rewrite lookup_insert_eq.
    + by rewrite lookup_insert_ne.
Qed.

Lemma insert_all_twice kvs m :
  insert_all kvs (insert_all kvs m) = insert_all kvs m.
Proof.
  destruct (insert_all_lookup kvs) as [g Hg]. apply map_eq. intros k.
  rewrite (Hg (insert_all kvs m)). rewrite (Hg m). by destruct (g k).
Qed.

Lemma body_of_steady s s' u : steady → body_of s u = body_of s' u.
Proof. intros Hsteady. unfold body_of. by rewrite (Hsteady s s' u). Qed.

Lemma files_fetched_all_steady s0 es s :
  steady →
  files (fetched_all es s) =
    insert_all ((λ e, (example_dest e, body_of s0 (entry_url e))) <$> es) (files s).
Proof.
  intros Hsteady. revert s. induction es as [|e es IH]; intros s; cbn; [done|].
  unfold fetched_all in IH. rewrite IH. unfold fetched, put_file. cbn.
  by rewrite (body_of_steady _ s0 _ Hsteady).
Qed.

Lemma files_after_run_steady s0 items s :
  steady →
  files (after_run items s) =
    insert_all ((TARGET_DIR // "managedClusters.json", body_of s0 (PStr main_spec_url))
                :: ((λ e, (example_dest e, body_of s0 (entry_url e)))
                      <$> file_entries items))
               (files s).
Proof.
  intros Hsteady. unfold after_run. rewrite (files_fetched_all_steady s0 _ _ Hsteady).
  unfold at_listing, fetched, put_file, log_request, add_dir. cbn.
  by rewrite (body_of_steady _ s0 _ Hsteady).
Qed.

Lemma dirs_after_run items s :
  dirs (after_run items s) =
    {[TARGET_DIR // "examples"]} ∪ ({[TARGET_DIR]} ∪ dirs s).
Proof. unfold after_run. by rewrite dirs_fetched_all. Qed.

Lemma listing_ok_steady s s' v : steady → listing_ok s v → listing_ok s' v.
Proof.
  intros Hsteady (r & [Hget Hr] & Hjson). exists r. split; [split|]; try done.
  by rewrite (Hsteady s' s).
Qed.

(** X9: running the script twice.  When the network answers the same way
    both times and a real run goes well, a second real run right after it
    goes well too and leaves the files and the directories exactly as the
    first run left them: the files are written over with the same
    content. *)
Theorem second_run_changes_nothing argv s items :
  in_argv "--dry-run" argv = false →
  steady →
  calm (PStr main_spec_url :: (entry_url <$> file_entries items)) →
  listing_ok s (PList items) →
  Forall (λ e, well_formed_entry e = true) items →
  outcome (main argv s) = Ok 0%Z ∧
  outcome (main argv (final (main argv s))) = Ok 0%Z ∧
  files (final (main argv (final (main argv s)))) = files (final (main argv s)) ∧
  dirs (final (main argv (final (main argv s)))) = dirs (final (main argv s)).
Proof.
  intros Hdry Hsteady Hcalm Hok Hwf.
  assert (Hrun : ∀ t, main argv t = mkRun (Ok 0%Z) (after_run items t)
            ([Out ("Target directory: " +:+ TARGET_DIR);
              Out "Downloading AKS API specs from GitHub...";
              Out "Downloading managedClusters.json...";
              Out "Getting list of example files...";
              Out "Downloading example files..."]
             ++ example_lines (file_entries items)
             ++ [Out (summary_line argv (List.length (file_entries items)))])).
  { intros t. apply main_real_run; try done. by apply (listing_ok_steady s). }
  rewrite !Hrun. cbn [outcome final].
  split; [done|]. split; [done|]. split.
  - rewrite !(files_after_run_steady s _ _ Hsteady). apply insert_all_twice.
  - rewrite !dirs_after_run. set_solver.
Qed.

(** X10: a dry run shows what a real run would print.  For the same
    listing of well-formed entries, a dry run and a real run that goes well
    print the same progress lines, one per file entry; the dry run adds the
    line that says so after the first, and the two summaries differ only
    in the dry-run remark. *)
Theorem dry_run_prints_the_lines_of_a_real_run argv argv_dry s items :
  in_argv "--dry-run" argv = false →
  in_argv "--dry-run" argv_dry = true →
  calm (PStr main_spec_url :: (entry_url <$> file_entries items)) →
  listing_ok (at_listing s) (PList items) →
  listing_ok s (PList items) →
  Forall (λ e, well_formed_entry e = true) items →
  ∃ progress,
    printed (main argv s) =
      (Out ("Target directory: " +:+ TARGET_DIR) :: progress
         ++ [Out (summary_line argv (List.length (file_entries items)))])%list ∧
    printed (main argv_dry s) =
      (Out ("Target directory: " +:+ TARGET_DIR)
         :: Out "Dry run mode: files will not be downloaded" :: progress
         ++ [Out (summary_line argv_dry (List.length (file_entries items)))])%list ∧
    List.length progress = (4 + List.length (file_entries items))%nat.
Proof.
  intros Hdry Hdry' Hcalm Hok Hok' Hwf.
  exists ([Out "Downloading AKS API specs from GitHub...";
           Out "Downloading managedClusters.json...";
           Out "Getting list of example files...";
           Out "Downloading example files..."]
          ++ example_lines (file_entries items))%list.
  split; [|split].
  - rewrite (main_real_run _ _ _ Hdry Hcalm Hok Hwf). cbn. by list_norm.
  - destruct (main_succeeds argv_dry s s _ items
                (before_listing_dry argv_dry s Hdry') Hok' Hwf (or_introl Hdry'))
      as [_ ->].
    cbn. by list_norm.
  - cbn. unfold example_lines. by rewrite length_fmap.
Qed.


(** ** What is on disk afterwards *)

Lemma fetched_all_snoc es e s :
  fetched_all (es ++ [e]) s =
    fetched (entry_url e) (example_dest e) (fetched_all es s).
Proof. unfold fetched_all. by rewrite foldl_app. Qed.

(** X11: the last file entry of the listing, in a real run that goes well.
    Its file is the last thing the run writes, so afterwards the path
    [TARGET_DIR / "examples" / name] holds exactly the body served for its
    [download_url].  The name goes into the path as the listing gives it:
    where pathlib's join returns the name itself, as it does for an
    absolute name, the file written is that path, outside the target. *)
Theorem last_example_is_written_as_named argv s items pre e :
  in_argv "--dry-run" argv = false →
  calm (PStr main_spec_url :: (entry_url <$> file_entries items)) →
  listing_ok (at_listing s) (PList items) →
  Forall (λ e, well_formed_entry e = true) items →
  file_entries items = (pre ++ [e])%list →
  files (final (main argv s)) !! (TARGET_DIR // "examples" // entry_name e)
    = Some (body_of (fetched_all pre (log_request (PStr examples_api_url)
                                        (at_listing s)))
                    (entry_url e)) ∧
  (TARGET_DIR // "examples" // entry_name e = entry_name e →
   files (final (main argv s)) !! entry_name e
     = Some (body_of (fetched_all pre (log_request (PStr examples_api_url)
                                         (at_listing s)))
                     (entry_url e))).
Proof.
  intros Hdry Hcalm Hok Hwf Hlast.
  assert (Hfile :
    files (final (main argv s)) !! (TARGET_DIR // "examples" // entry_name e)
      = Some (body_of (fetched_all pre (log_request (PStr examples_api_url)
                                          (at_listing s)))
                      (entry_url e))).
  { rewrite (main_real_run _ _ _ Hdry Hcalm Hok Hwf). cbn [final].
    unfold after_run. rewrite Hlast, fetched_all_snoc.
    unfold fetched at 1. unfold put_file, example_dest. cbn.
    by rewrite lookup_insert_eq. }
  split; [exact Hfile|]. intros Hjoin. by rewrite Hjoin in Hfile.
Qed.

(** X12: no rollback on a listing failure.  In a real run the main
    specification is fetched and written before the listing is asked for;
    when the listing step then fails, [main] returns 1 with both
    directories made and the main specification on disk. *)
Theorem listing_failure_keeps_main_spec argv s msg :
  in_argv "--dry-run" argv = false →
  calm [PStr main_spec_url] →
  listing_fails (at_listing s) msg →
  main argv s =
    mkRun (Ok 1%Z) (log_request (PStr examples_api_url) (at_listing s))
      [Out ("Target directory: " +:+ TARGET_DIR);
       Out "Downloading AKS API specs from GitHub...";
       Out "Downloading managedClusters.json...";
       Out "Getting list of example files...";
       Err (listing_error_line msg)] ∧
  files (final (main argv s)) !! (TARGET_DIR // "managedClusters.json")
    = Some (body_of (add_dir (TARGET_DIR // "examples") (add_dir TARGET_DIR s))
                    (PStr main_spec_url)) ∧
  dirs (final (main argv s)) =
    {[TARGET_DIR // "examples"]} ∪ ({[TARGET_DIR]} ∪ dirs s) ∧
  req_log (final (main argv s)) =
    (req_log s ++ [PStr main_spec_url; PStr examples_api_url])%list.
Proof.
  intros Hdry Hcalm Hfail.
  rewrite (main_listing_fails _ _ _ _ _ (before_listing_calm argv s Hdry Hcalm) Hfail).
  split; [done|]. cbn [final].
  unfold at_listing, fetched, put_file, log_request, add_dir. cbn.
  split; [by rewrite lookup_insert_eq|]. split; [done|]. by rewrite <- app_assoc.
Qed.

End Properties.

(** * Runs in the small environment

    Each property above with a premise is applied here to a concrete
    run, so that its premises are seen to hold somewhere; the two
    statements of the specification that the script does not meet are
    refuted on a concrete run. *)

Lemma dry_run_touches_no_file_demo :
  dirs (final (@script demo_ok demo_argv_dry empty_sys)) = ∅ ∧
  files (final (@script demo_ok demo_argv_dry empty_sys)) = ∅.
Proof.
  destruct (@dry_run_touches_no_file demo_ok demo_argv_dry empty_sys eq_refl)
    as (Hdirs & Hfiles & _).
  split; [exact Hdirs | exact Hfiles].
Defined.

Lemma dry_run_still_requests_listing_demo :
  req_log (final (@main demo_404 demo_argv_dry empty_sys))
    = [PStr examples_api_url] ∧
  outcome (@main demo_404 demo_argv_dry empty_sys) = Ok 1%Z ∧
  exit_status (outcome (@script demo_404 demo_argv_dry empty_sys)) = 1%Z.
Proof.
  destruct (@dry_run_still_requests_listing demo_404 demo_argv_dry empty_sys
              eq_refl) as [Hlog Hfail].
  split; [exact Hlog|].
  assert (Hlisting : @listing_fails demo_404 empty_sys
                       (http_error_msg (utf8_response 404 "Not Found"
                                          examples_api_url []))).
  { apply listing_request_fails.
    apply (@http_error_status demo_404 empty_sys (PStr examples_api_url)
             (utf8_response 404 "Not Found" examples_api_url []));
      [reflexivity | simpl; lia]. }
  destruct (Hfail _ Hlisting) as [Hmain Hexit].
  split; [by rewrite Hmain | exact Hexit].
Defined.

Lemma only_the_dry_run_flag_matters_demo :
  @main demo_ok ["x.py"; "--dry-run"] empty_sys
    = @main demo_ok ["y.py"; "-v"; "--dry-run"; "out"] empty_sys ∧
  outcome (@script demo_ok ["x.py"; "--dry-run"] empty_sys)
    = outcome (@script demo_ok ["y.py"; "-v"; "--dry-run"; "out"] empty_sys) ∧
  final (@script demo_ok ["x.py"; "--dry-run"] empty_sys)
    = final (@script demo_ok ["y.py"; "-v"; "--dry-run"; "out"] empty_sys).
Proof.
  destruct (@only_the_dry_run_flag_matters demo_ok ["x.py"; "--dry-run"]
              ["y.py"; "-v"; "--dry-run"; "out"] empty_sys eq_refl)
    as (Hmain & Hout & Hfinal & _).
  split; [exact Hmain|]. split; [exact Hout | exact Hfinal].
Defined.

Lemma download_file_contract_demo :
  @download_file demo_broken demo_argv_dry (PStr "https://host/a.json")
     "/repo/a.json" empty_sys = mkRun (Ok ()) empty_sys [] ∧
  @download_file demo_broken demo_argv (PStr "https://host/b.json")
     "/repo/b.json" empty_sys =
    mkRun (Raise (SystemExit 1)) (log_request (PStr "https://host/b.json") empty_sys)
      [Err "Error: Failed to download https://host/b.json: 500 Server Error: Internal Server Error for url: https://host/b.json"] ∧
  files (final (@download_file demo_broken demo_argv (PStr "https://host/a.json")
                  "/repo/a.json" empty_sys)) !! "/repo/a.json"
    = Some (String.list_byte_of_string "{}").
Proof.
  split; [|split].
  - exact (proj1 (@download_file_contract demo_broken demo_argv_dry
                    (PStr "https://host/a.json") "/repo/a.json" empty_sys) eq_refl).
  - destruct (proj2 (@download_file_contract demo_broken demo_argv
                       (PStr "https://host/b.json") "/repo/b.json" empty_sys)
                eq_refl) as (_ & Hstatus & _).
    apply (Hstatus (utf8_response 500 "Internal Server Error" "https://host/b.json" []));
      [reflexivity | simpl; lia].
  - destruct (proj2 (@download_file_contract demo_broken demo_argv
                       (PStr "https://host/a.json") "/repo/a.json" empty_sys)
                eq_refl) as (_ & _ & _ & Hwritten).
    destruct (Hwritten (utf8_response 200 "OK" "https://host/a.json"
                          (String.list_byte_of_string "{}")))
      as (_ & _ & _ & Hdest & _).
    + split; [reflexivity | simpl; lia].
    + reflexivity.
    + exact Hdest.
Defined.


Lemma demo_listing_ok s :
  @listing_ok demo_ok s demo_listing.
Proof.
  exists (utf8_response 200 "OK" examples_api_url (String.list_byte_of_string "listing")).
  split; [split; [reflexivity | simpl; lia] | reflexivity].
Qed.

Lemma demo_ok_calm :
  @calm demo_ok [PStr "https://host/a.json"; PStr "https://host/b.json"].
Proof.
  split; [reflexivity|]. intros s u Hu.
  apply elem_of_cons in Hu as [->|Hu]; [|apply elem_of_cons in Hu as [->|Hu]].
  - eexists. split; [reflexivity | simpl; lia].
  - eexists. split; [reflexivity | simpl; lia].
  - by apply elem_of_nil in Hu.
Qed.

Lemma summary_reports_files_plus_one_demo :
  (outcome (@main demo_ok demo_argv_dry empty_sys) = Ok 0%Z ∧
   last (printed (@main demo_ok demo_argv_dry empty_sys)) =
     Some (Out "Download completed (dry run - no files were actually downloaded). 3 files would be downloaded to /repo/azure_spec/")) ∧
  (outcome (@main demo_ok demo_argv empty_sys) = Ok 0%Z ∧
   last (printed (@main demo_ok demo_argv empty_sys)) =
     Some (Out "Download completed. 3 files would be downloaded to /repo/azure_spec/")).
Proof.
  split.
  - apply (@summary_reports_files_plus_one demo_ok demo_argv_dry empty_sys empty_sys _
             [demo_entry "a.json" "file"; demo_entry "sub" "dir";
              demo_entry "b.json" "file"]
             (@before_listing_dry demo_ok demo_argv_dry empty_sys eq_refl)
             (demo_listing_ok _)).
    + repeat constructor.
    + left. reflexivity.
  - apply (@summary_reports_files_plus_one demo_ok demo_argv empty_sys
             (final (@before_listing demo_ok demo_argv empty_sys))
             (printed (@before_listing demo_ok demo_argv empty_sys))
             [demo_entry "a.json" "file"; demo_entry "sub" "dir";
              demo_entry "b.json" "file"]).
    + vm_compute. reflexivity.
    + apply demo_listing_ok.
    + repeat constructor.
    + right. exact demo_ok_calm.
Defined.

(** The run in which the second example file is answered by a status 500. *)
Lemma demo_broken_run :
  @download_failure demo_broken demo_argv empty_sys
    (final (@for_examples demo_broken demo_argv
              [demo_entry "a.json" "file"; demo_entry "sub" "dir"] 0
              (log_request (PStr examples_api_url)
                 (final (@before_listing demo_broken demo_argv empty_sys)))))
    (PStr "https://host/b.json")
    (printed (@before_listing demo_broken demo_argv empty_sys)
       ++ [Out "Downloading example files..."]
       ++ printed (@for_examples demo_broken demo_argv
                     [demo_entry "a.json" "file"; demo_entry "sub" "dir"] 0
                     (log_request (PStr examples_api_url)
                        (final (@before_listing demo_broken demo_argv empty_sys))))
       ++ [Out (@example_line demo_broken (PStr "b.json"))])%list
    (http_error_msg
       (utf8_response 500 "Internal Server Error" "https://host/b.json" [])).
Proof.
  eapply (@example_failure demo_broken demo_argv empty_sys _ _
            [demo_entry "a.json" "file"; demo_entry "sub" "dir"]
            (demo_entry "b.json" "file") [] 1%nat).
  - vm_compute. reflexivity.
  - exists (utf8_response 200 "OK" examples_api_url
              (String.list_byte_of_string "listing")).
    split; [split; [reflexivity | simpl; lia] | reflexivity].
  - vm_compute. reflexivity.
  - by constructor.
  - eapply http_error_status; [reflexivity | simpl; lia].
Qed.

Lemma failed_download_ends_the_run_demo :
  outcome (@main demo_broken demo_argv empty_sys) = Raise (SystemExit 1) ∧
  exit_status (outcome (@script demo_broken demo_argv empty_sys)) = 1%Z ∧
  last (printed (@script demo_broken demo_argv empty_sys)) =
    Some (Err "Error: Failed to download https://host/b.json: 500 Server Error: Internal Server Error for url: https://host/b.json") ∧
  last (req_log (final (@script demo_broken demo_argv empty_sys)))
    = Some (PStr "https://host/b.json") ∧
  files (final (@script demo_broken demo_argv empty_sys))
    !! "/repo/azure_spec/examples/a.json" = Some (String.list_byte_of_string "{}").
Proof.
  destruct (@failed_download_ends_the_run demo_broken demo_argv empty_sys _ _ _ _
              eq_refl demo_broken_run)
    as (Hmain & Hexit & Hlast & Hlog & Hfiles & _).
  split; [by rewrite Hmain|]. split; [exact Hexit|]. split; [exact Hlast|].
  split; [rewrite Hlog; apply last_snoc|].
  rewrite Hfiles. vm_compute. reflexivity.
Defined.

(** The spec's wording of C7 fails: a listing answered by a status 300
    with a JSON array is no failure; [main] goes on and returns 0. *)
Lemma status_300_is_not_a_failure :
  ¬ @non_2xx_is_recovered demo_300 demo_argv empty_sys.
Proof.
  intros Hclaim.
  specialize (Hclaim (final (@before_listing demo_300 demo_argv empty_sys))
                (printed (@before_listing demo_300 demo_argv empty_sys))
                (utf8_response 300 "Multiple Choices" examples_api_url
                   (String.list_byte_of_string "[]"))).
  assert (Hmain : outcome (@main demo_300 demo_argv empty_sys) = Ok 0%Z)
    by (vm_compute; reflexivity).
  rewrite Hmain in Hclaim.
  assert (Hone : Ok 0%Z = Ok 1%Z); [|discriminate Hone].
  apply Hclaim; [vm_compute; reflexivity | reflexivity | simpl; lia].
Qed.

(** The spec's wording of C7 fails a second time: a listing of 2000
    opening brackets is no JSON, the decoder runs out of stack on it, and
    the [RecursionError] leaves [main] past the handler. *)
Lemma deep_nesting_escapes_the_handler :
  ¬ @malformed_json_is_recovered demo_deep demo_argv empty_sys.
Proof.
  intros Hclaim.
  specialize (Hclaim (final (@before_listing demo_deep demo_argv empty_sys))
                (printed (@before_listing demo_deep demo_argv empty_sys))
                (utf8_response 200 "OK" examples_api_url
                   (String.list_byte_of_string (deep_text 2000)))).
  assert (Hmain : outcome (@main demo_deep demo_argv empty_sys) = Raise RecursionError)
    by (vm_compute; reflexivity).
  rewrite Hmain in Hclaim.
  assert (Hone : Raise RecursionError = Ok 1%Z); [|discriminate Hone].
  apply Hclaim; [vm_compute; reflexivity | reflexivity |].
  intros v Hv. vm_compute in Hv. discriminate Hv.
Qed.

(** The spec's wording of C7 fails on both counts. *)
Lemma listing_step_is_not_all_recovered :
  ¬ @non_2xx_is_recovered demo_300 demo_argv empty_sys ∧
  ¬ @malformed_json_is_recovered demo_deep demo_argv empty_sys.
Proof.
  split; [exact status_300_is_not_a_failure | exact deep_nesting_escapes_the_handler].
Qed.

Lemma listing_failures_are_recovered_demo :
  (@main demo_not_json demo_argv_dry empty_sys =
     mkRun (Ok 1%Z) (log_request (PStr examples_api_url) empty_sys)
       [Out "Target directory: /repo/azure_spec";
        Out "Dry run mode: files will not be downloaded";
        Out "Downloading AKS API specs from GitHub...";
        Out "Downloading managedClusters.json...";
        Out "Getting list of example files...";
        Err "Error: Failed to get list of example files: Expecting value: line 1 column 1 (char 0)"] ∧
   exit_status (outcome (@script demo_not_json demo_argv_dry empty_sys)) = 1%Z) ∧
  outcome (@script demo_deep demo_argv_dry empty_sys) = Raise RecursionError.
Proof.
  split.
  - apply (proj1 (@listing_failures_are_recovered demo_not_json demo_argv_dry empty_sys
                    empty_sys _
                    (@before_listing_dry demo_not_json demo_argv_dry empty_sys eq_refl))
             "Expecting value: line 1 column 1 (char 0)").
    right. right.
    exists (utf8_response 200 "OK" examples_api_url
              (String.list_byte_of_string "<html>")).
    split; [reflexivity|]. split; [simpl; lia | reflexivity].
  - apply (proj2 (@listing_failures_are_recovered demo_deep demo_argv_dry empty_sys
                    empty_sys _
                    (@before_listing_dry demo_deep demo_argv_dry empty_sys eq_refl))
             (utf8_response 200 "OK" examples_api_url
                (String.list_byte_of_string (deep_text 2000)))
             RecursionError).
    + reflexivity.
    + simpl; lia.
    + left. split; [vm_compute; reflexivity | reflexivity].
Defined.

(** The spec's wording of C2 fails: the listing is served and the second
    example file is answered by a status 500; the exit status is 1 and the
    listing step did not fail. *)
Lemma exit_1_without_listing_failure :
  ¬ @exit_1_iff_listing_fails demo_broken demo_argv empty_sys.
Proof.
  intros [Hclaim _].
  destruct Hclaim as (s1 & out1 & msg & _ & Hfail); [vm_compute; reflexivity|].
  destruct Hfail as [msg Hfail | r msg [Hget Hr] Hjson].
  - destruct Hfail as [cls msg Hget | r Hget Hr].
    + vm_compute in Hget. discriminate Hget.
    + vm_compute in Hget. injection Hget as <-. simpl in Hr. lia.
  - vm_compute in Hget. injection Hget as <-. vm_compute in Hjson.
    discriminate Hjson.
Qed.

Lemma demo_404_listing_fails :
  @listing_fails demo_404 empty_sys
    (http_error_msg (utf8_response 404 "Not Found" examples_api_url [])).
Proof.
  apply listing_request_fails.
  apply (@http_error_status demo_404 empty_sys (PStr examples_api_url)
           (utf8_response 404 "Not Found" examples_api_url []));
    [reflexivity | simpl; lia].
Qed.

Lemma exit_status_of_the_run_demo :
  exit_status (outcome (@script demo_ok demo_argv_dry empty_sys)) = 0%Z ∧
  exit_status (outcome (@script demo_404 demo_argv_dry empty_sys)) = 1%Z ∧
  exit_status (outcome (@script demo_broken demo_argv empty_sys)) = 1%Z.
Proof.
  split; [|split].
  - destruct (@exit_status_of_the_run demo_ok demo_argv_dry empty_sys)
      as (Hzero & _).
    apply (Hzero empty_sys _
             [demo_entry "a.json" "file"; demo_entry "sub" "dir";
              demo_entry "b.json" "file"]
             (@before_listing_dry demo_ok demo_argv_dry empty_sys eq_refl)
             (demo_listing_ok _)).
    + repeat constructor.
    + left. reflexivity.
  - destruct (@exit_status_of_the_run demo_404 demo_argv_dry empty_sys)
      as (_ & _ & Hone & _).
    exact (proj2 (Hone empty_sys _ _
                    (@before_listing_dry demo_404 demo_argv_dry empty_sys eq_refl)
                    demo_404_listing_fails)).
  - destruct (@exit_status_of_the_run demo_broken demo_argv empty_sys)
      as (_ & _ & _ & Hdownload).
    exact (Hdownload _ _ _ _ eq_refl demo_broken_run).
Defined.

Lemma missing_key_is_not_recovered_demo :
  @main demo_no_type demo_argv_dry empty_sys =
    mkRun (Raise (KeyError "type")) (log_request (PStr examples_api_url) empty_sys)
      [Out "Target directory: /repo/azure_spec";
       Out "Dry run mode: files will not be downloaded";
       Out "Downloading AKS API specs from GitHub...";
       Out "Downloading managedClusters.json...";
       Out "Getting list of example files...";
       Out "Downloading example files...";
       Out "  - a.json"] ∧
  outcome (@script demo_no_type demo_argv_dry empty_sys) = Raise (KeyError "type").
Proof.
  destruct (@missing_key_is_not_recovered demo_no_type demo_argv_dry empty_sys
              empty_sys _
              [demo_entry "a.json" "file"; PDict [("name", PStr "b.json")]]
              (@before_listing_dry demo_no_type demo_argv_dry empty_sys eq_refl))
    as [_ Hkey].
  - exists (utf8_response 200 "OK" examples_api_url
              (String.list_byte_of_string "listing-no-type")).
    split; [split; [reflexivity | simpl; lia] | reflexivity].
  - apply (Hkey [demo_entry "a.json" "file"] (PDict [("name", PStr "b.json")]) []
             "type" 1%nat (log_request (PStr examples_api_url) empty_sys)
             [Out "  - a.json"]).
    + reflexivity.
    + by constructor.
    + reflexivity.
Defined.

(** ** Runs for the further properties *)

Lemma makedirs_refusal_comes_before_any_request_demo :
  @main demo_no_dirs demo_argv empty_sys =
    mkRun (Raise (OSError "[Errno 13] Permission denied")) empty_sys
          [Out "Target directory: /repo/azure_spec"] ∧
  exit_status (outcome (@script demo_no_dirs demo_argv empty_sys)) = 1%Z.
Proof.
  exact (proj1 (@makedirs_refusal_comes_before_any_request demo_no_dirs demo_argv
                  empty_sys "[Errno 13] Permission denied" eq_refl) eq_refl).
Defined.

Lemma open_refusal_is_not_caught_demo :
  outcome (@script demo_no_b demo_argv empty_sys)
    = Raise (OSError "[Errno 13] Permission denied") ∧
  last (req_log (final (@main demo_no_b demo_argv empty_sys)))
    = Some (PStr "https://host/b.json") ∧
  files (final (@main demo_no_b demo_argv empty_sys))
    !! "/repo/azure_spec/examples/b.json" = None.
Proof.
  destruct (@open_refusal_is_not_caught demo_no_b demo_argv empty_sys
              (final (@before_listing demo_no_b demo_argv empty_sys))
              (printed (@before_listing demo_no_b demo_argv empty_sys))
              [demo_entry "a.json" "file"; demo_entry "sub" "dir"]
              (demo_entry "b.json" "file") [] 1%nat
              (final (@for_examples demo_no_b demo_argv
                        [demo_entry "a.json" "file"; demo_entry "sub" "dir"] 0
                        (log_request (PStr examples_api_url)
                           (final (@before_listing demo_no_b demo_argv empty_sys)))))
              (printed (@for_examples demo_no_b demo_argv
                          [demo_entry "a.json" "file"; demo_entry "sub" "dir"] 0
                          (log_request (PStr examples_api_url)
                             (final (@before_listing demo_no_b demo_argv empty_sys)))))
              "b.json" (PStr "https://host/b.json")
              (utf8_response 200 "OK" "https://host/b.json"
                 (String.list_byte_of_string "{}"))
              "[Errno 13] Permission denied")
    as (Hmain & Hfiles & Hscript).
  - reflexivity.
  - vm_compute. reflexivity.
  - exists (utf8_response 200 "OK" examples_api_url
              (String.list_byte_of_string "listing")).
    split; [split; [reflexivity | simpl; lia] | reflexivity].
  - vm_compute. reflexivity.
  - by constructor.
  - split; [reflexivity | simpl; lia].
  - reflexivity.
  - split; [exact Hscript|]. split.
    + rewrite Hmain. cbn [final]. apply last_snoc.
    + rewrite Hfiles. vm_compute. reflexivity.
Defined.

Lemma listing_that_is_no_array_demo :
  outcome (@script demo_null demo_argv_dry empty_sys) = Raise TypeError ∧
  last (printed (@main demo_object demo_argv_dry empty_sys)) =
    Some (Out "Download completed (dry run - no files were actually downloaded). 1 files would be downloaded to /repo/azure_spec/") ∧
  exit_status (outcome (@script demo_object demo_argv_dry empty_sys)) = 0%Z.
Proof.
  split; [|split].
  - destruct (@listing_that_is_no_array demo_null demo_argv_dry empty_sys empty_sys _
                PNone (@before_listing_dry demo_null demo_argv_dry empty_sys eq_refl))
      as [Hbad _].
    + exists (utf8_response 200 "OK" examples_api_url
                (String.list_byte_of_string "null")).
      split; [split; [reflexivity | simpl; lia] | reflexivity].
    + exact (proj2 (Hbad (or_introl eq_refl))).
  - destruct (@listing_that_is_no_array demo_object demo_argv_dry empty_sys empty_sys _
                (PDict []) (@before_listing_dry demo_object demo_argv_dry empty_sys eq_refl))
      as [_ Hempty].
    + exists (utf8_response 200 "OK" examples_api_url
                (String.list_byte_of_string "{}")).
      split; [split; [reflexivity | simpl; lia] | reflexivity].
    + rewrite (proj1 (Hempty (or_introl eq_refl))). reflexivity.
  - destruct (@listing_that_is_no_array demo_object demo_argv_dry empty_sys empty_sys _
                (PDict []) (@before_listing_dry demo_object demo_argv_dry empty_sys eq_refl))
      as [_ Hempty].
    + exists (utf8_response 200 "OK" examples_api_url
                (String.list_byte_of_string "{}")).
      split; [split; [reflexivity | simpl; lia] | reflexivity].
    + exact (proj2 (Hempty (or_introl eq_refl))).
Defined.

Lemma name_that_is_no_string_demo :
  @main demo_null_name demo_argv_dry empty_sys =
    mkRun (Raise TypeError) (log_request (PStr examples_api_url) empty_sys)
      [Out "Target directory: /repo/azure_spec";
       Out "Dry run mode: files will not be downloaded";
       Out "Downloading AKS API specs from GitHub...";
       Out "Downloading managedClusters.json...";
       Out "Getting list of example files...";
       Out "Downloading example files...";
       Out "  - None"] ∧
  outcome (@script demo_null_name demo_argv_dry empty_sys) = Raise TypeError.
Proof.
  apply (@name_that_is_no_string demo_null_name demo_argv_dry empty_sys empty_sys _
           [] [("name", PNone); ("type", PStr "file");
               ("download_url", PStr "https://host/x")] [] 0%nat
           (log_request (PStr examples_api_url) empty_sys) [] PNone
           (PStr "https://host/x")
           (@before_listing_dry demo_null_name demo_argv_dry empty_sys eq_refl)).
  - exists (utf8_response 200 "OK" examples_api_url
              (String.list_byte_of_string "listing-null-name")).
    split; [split; [reflexivity | simpl; lia] | reflexivity].
  - reflexivity.
  - reflexivity.
  - reflexivity.
  - reflexivity.
  - intros name. discriminate.
Defined.

Lemma demo_ok_calm_all :
  @calm demo_ok
    (PStr main_spec_url ::
     (entry_url <$> file_entries
        [demo_entry "a.json" "file"; demo_entry "sub" "dir";
         demo_entry "b.json" "file"])).
Proof.
  split; [reflexivity|]. intros s u Hu.
  apply elem_of_cons in Hu as [->|Hu].
  { eexists. split; [reflexivity | simpl; lia]. }
  exact (proj2 demo_ok_calm s u Hu).
Qed.

Lemma demo_ok_steady : @steady demo_ok.
Proof. intros s s' u. reflexivity. Qed.

Lemma demo_items_well_formed :
  Forall (λ e, well_formed_entry e = true)
    [demo_entry "a.json" "file"; demo_entry "sub" "dir"; demo_entry "b.json" "file"].
Proof. repeat constructor. Qed.

Lemma real_run_fetches_everything_in_order_demo :
  outcome (@main demo_ok demo_argv empty_sys) = Ok 0%Z ∧
  req_log (final (@main demo_ok demo_argv empty_sys)) =
    [PStr main_spec_url; PStr examples_api_url;
     PStr "https://host/a.json"; PStr "https://host/b.json"] ∧
  is_Some (files (final (@main demo_ok demo_argv empty_sys))
             !! "/repo/azure_spec/examples/b.json").
Proof.
  destruct (@real_run_fetches_everything_in_order demo_ok demo_argv empty_sys
              [demo_entry "a.json" "file"; demo_entry "sub" "dir";
               demo_entry "b.json" "file"]
              eq_refl demo_ok_calm_all (demo_listing_ok _) demo_items_well_formed)
    as (Hout & Hlog & _ & _ & Hfiles).
  split; [exact Hout|]. split; [exact Hlog|].
  apply (Hfiles (demo_entry "b.json" "file")).
  apply list_elem_of_In. simpl. tauto.
Defined.

Lemma second_run_changes_nothing_demo :
  outcome (@main demo_ok demo_argv (final (@main demo_ok demo_argv empty_sys)))
    = Ok 0%Z ∧
  files (final (@main demo_ok demo_argv (final (@main demo_ok demo_argv empty_sys))))
    = files (final (@main demo_ok demo_argv empty_sys)).
Proof.
  destruct (@second_run_changes_nothing demo_ok demo_argv empty_sys
              [demo_entry "a.json" "file"; demo_entry "sub" "dir";
               demo_entry "b.json" "file"]
              eq_refl demo_ok_steady demo_ok_calm_all (demo_listing_ok _)
              demo_items_well_formed)
    as (_ & Hout & Hfiles & _).
  split; [exact Hout | exact Hfiles].
Defined.

Lemma dry_run_prints_the_lines_of_a_real_run_demo :
  ∃ progress,
    printed (@main demo_ok demo_argv empty_sys) =
      (Out "Target directory: /repo/azure_spec" :: progress
         ++ [Out "Download completed. 3 files would be downloaded to /repo/azure_spec/"])%list ∧
    printed (@main demo_ok demo_argv_dry empty_sys) =
      (Out "Target directory: /repo/azure_spec"
         :: Out "Dry run mode: files will not be downloaded" :: progress
         ++ [Out "Download completed (dry run - no files were actually downloaded). 3 files would be downloaded to /repo/azure_spec/"])%list ∧
    List.length progress = 6%nat.
Proof.
  exact (@dry_run_prints_the_lines_of_a_real_run demo_ok demo_argv demo_argv_dry
           empty_sys
           [demo_entry "a.json" "file"; demo_entry "sub" "dir";
            demo_entry "b.json" "file"]
           eq_refl eq_refl demo_ok_calm_all (demo_listing_ok _) (demo_listing_ok _)
           demo_items_well_formed).
Defined.

Lemma demo_pathlib_calm :
  @calm demo_pathlib
    [PStr main_spec_url; PStr "https://host/a.json";
     PStr "https://host//tmp/elsewhere.json"].
Proof.
  split; [reflexivity|]. intros s u Hu.
  repeat (apply elem_of_cons in Hu as [->|Hu];
          [eexists; split; [reflexivity | simpl; lia]|]).
  by apply elem_of_nil in Hu.
Qed.

Lemma last_example_is_written_as_named_demo :
  files (final (@main demo_pathlib demo_argv empty_sys)) !! "/tmp/elsewhere.json"
    = Some (String.list_byte_of_string "{}").
Proof.
  destruct (@last_example_is_written_as_named demo_pathlib demo_argv empty_sys
              [demo_entry "a.json" "file"; demo_entry "/tmp/elsewhere.json" "file"]
              [demo_entry "a.json" "file"] (demo_entry "/tmp/elsewhere.json" "file")
              eq_refl demo_pathlib_calm)
    as [_ Habsolute].
  - exists (utf8_response 200 "OK" examples_api_url
              (String.list_byte_of_string "listing-absolute")).
    split; [split; [reflexivity | simpl; lia] | reflexivity].
  - repeat constructor.
  - reflexivity.
  - exact (Habsolute eq_refl).
Defined.

Lemma listing_failure_keeps_main_spec_demo :
  outcome (@main demo_404 demo_argv empty_sys) = Ok 1%Z ∧
  files (final (@main demo_404 demo_argv empty_sys))
    !! "/repo/azure_spec/managedClusters.json" = Some (String.list_byte_of_string "{}") ∧
  req_log (final (@main demo_404 demo_argv empty_sys)) =
    [PStr main_spec_url; PStr examples_api_url].
Proof.
  destruct (@listing_failure_keeps_main_spec demo_404 demo_argv empty_sys
              (http_error_msg (utf8_response 404 "Not Found" examples_api_url []))
              eq_refl)
    as (Hmain & Hfile & _ & Hlog).
  - split; [reflexivity|]. intros s u Hu.
    apply elem_of_cons in Hu as [->|Hu]; [|by apply elem_of_nil in Hu].
    eexists. split; [reflexivity | simpl; lia].
  - apply listing_request_fails.
    apply (@http_error_status demo_404 _ (PStr examples_api_url)
             (utf8_response 404 "Not Found" examples_api_url []));
      [reflexivity | simpl; lia].
  - split; [by rewrite Hmain|]. split; [exact Hfile | exact Hlog].
Defined.

Lemma one_error_line_iff_exit_1_demo :
  errors (@script demo_broken demo_argv empty_sys) ≠ [] ∧
  errors (@script demo_ok demo_argv empty_sys) = [].
Proof.
  split.
  - apply (proj2 (@one_error_line_iff_exit_1 demo_broken demo_argv empty_sys)).
    vm_compute. reflexivity.
  - destruct (decide (errors (@script demo_ok demo_argv empty_sys) = []))
      as [Hnone|Hsome]; [exact Hnone|].
    apply (proj2 (@one_error_line_iff_exit_1 demo_ok demo_argv empty_sys)) in Hsome.
    vm_compute in Hsome. discriminate Hsome.
Defined.

Lemma script_only_adds_demo :
  is_Some (files (final (@script demo_ok demo_argv
                           (put_file "/repo/notes.txt" [] empty_sys)))
             !! "/repo/notes.txt").
Proof.
  destruct (@script_only_adds demo_ok demo_argv
              (put_file "/repo/notes.txt" [] empty_sys)) as (_ & _ & Hfiles).
  apply Hfiles. exists []. vm_compute. reflexivity.
Defined.
